(** * Quoteback metadata fetching: a shallow embedding and its properties

    The development follows [blog/quoteback_utils.py] (the page-metadata
    extractor and the favicon downloader) and the [QuotebackAdminForm.save]
    method of [blog/admin.py].

    - [PyStr]    the Python string methods the code calls;
    - [Urllib]   [urllib.parse]: [urlsplit], [urlparse], [urlunparse], [urljoin];
    - [Bs4]      the part of BeautifulSoup the extractors use: the element
                 tree, [find] with attribute filters, [get] and [.string];
    - [Effects]  the network, the logger, file storage and the database as an
                 explicit world threaded through a small state monad;
    - the three extractors, [fetch_page_metadata], [download_favicon] and
      [save], each translated statement by statement. *)

From Stdlib Require Import ZArith Ascii String List Bool Lia.
From stdpp Require Import base option list strings gmap.

Local Open Scope Z_scope.

(** ** Exceptions

    A call that can raise returns [Raised e], where [e] is the text of the
    exception, the only thing about it the code ever looks at (it is
    interpolated into a log line). *)

Inductive Exc (A : Type) : Type :=
  | Value (a : A)
  | Raised (e : string).
Arguments Value {A} a.
Arguments Raised {A} e.

Definition exc_bind {A B} (m : Exc A) (k : A -> Exc B) : Exc B :=
  match m with
  | Value a => k a
  | Raised e => Raised e
  end.

Notation "'try!' x <- m ; k" := (exc_bind m (fun x => k))
  (at level 100, x pattern, m at next level, right associativity).

(** ** Python strings

    A [str] is a Rocq [string]; a character is a code point below 256. *)

Module PyStr.

Definition code (c : ascii) : nat := nat_of_ascii c.

Definition between (lo hi : nat) (c : ascii) : bool :=
  (Nat.leb lo (code c)) && (Nat.leb (code c) hi).

(** [c.isspace()]: the characters Python counts as whitespace below 256. *)
Definition isspace (c : ascii) : bool :=
  between 9 13 c || between 28 32 c
  || Nat.eqb (code c) 133 || Nat.eqb (code c) 160.

(** [c.isascii() and c.isalpha()] *)
Definition is_ascii_alpha (c : ascii) : bool :=
  between 65 90 c || between 97 122 c.

Definition is_digit (c : ascii) : bool := between 48 57 c.

Definition has_upper (c : ascii) : bool :=
  between 65 90 c || (between 192 222 c && negb (Nat.eqb (code c) 215)).

Definition lower_char (c : ascii) : ascii :=
  if has_upper c then ascii_of_nat (code c + 32) else c.

(** [s.lower()] *)
Fixpoint lower (s : string) : string :=
  match s with
  | EmptyString => EmptyString
  | String c s' => String (lower_char c) (lower s')
  end.

(** [bool(s)]: a string is true when it is not empty. *)
Definition truthy (s : string) : bool :=
  match s with
  | EmptyString => false
  | String _ _ => true
  end.

(** [s.startswith(p)] *)
Fixpoint startswith (s p : string) : bool :=
  match p, s with
  | EmptyString, _ => true
  | String _ _, EmptyString => false
  | String b p', String a s' => bool_decide (a = b) && startswith s' p'
  end.

(** [sub in s] *)
Fixpoint contains (sub s : string) : bool :=
  startswith s sub
  || match s with
     | EmptyString => false
     | String _ s' => contains sub s'
     end.

(** [c in s] for a single character *)
Fixpoint has_char (c : ascii) (s : string) : bool :=
  match s with
  | EmptyString => false
  | String a s' => bool_decide (a = c) || has_char c s'
  end.

(** [s.lstrip(chars)]: drop the leading characters that occur in [chars]. *)
Fixpoint lstrip (chars : string) (s : string) : string :=
  match s with
  | EmptyString => EmptyString
  | String a s' => if has_char a chars then lstrip chars s' else s
  end.

Fixpoint lstrip_by (p : ascii -> bool) (s : string) : string :=
  match s with
  | EmptyString => EmptyString
  | String a s' => if p a then lstrip_by p s' else s
  end.

Fixpoint rstrip_by (p : ascii -> bool) (s : string) : string :=
  match s with
  | EmptyString => EmptyString
  | String a s' =>
      match rstrip_by p s' with
      | EmptyString => if p a then EmptyString else String a EmptyString
      | r => String a r
      end
  end.

Definition strip_by (p : ascii -> bool) (s : string) : string :=
  rstrip_by p (lstrip_by p s).

(** [s.strip()] with no argument strips whitespace at both ends. *)
Definition strip (s : string) : string := strip_by isspace s.

(** [s.split(sep)] for a separator of one character. *)
Fixpoint split (sep : ascii) (s : string) : list string :=
  match s with
  | EmptyString => [EmptyString]
  | String a s' =>
      if bool_decide (a = sep) then EmptyString :: split sep s'
      else match split sep s' with
           | w :: ws => String a w :: ws
           | [] => [String a EmptyString]
           end
  end.

(** [s.partition(sep)] when [sep] occurs: the text before the first
    occurrence and the text after it; [None] when it does not occur. *)
Fixpoint partition (sep : ascii) (s : string) : option (string * string) :=
  match s with
  | EmptyString => None
  | String a s' =>
      if bool_decide (a = sep) then Some (EmptyString, s')
      else match partition sep s' with
           | Some (l, r) => Some (String a l, r)
           | None => None
           end
  end.

(** The text up to and including the last [sep], and what follows it. *)
Fixpoint rpartition_keep (sep : ascii) (s : string) : option (string * string) :=
  match s with
  | EmptyString => None
  | String a s' =>
      match rpartition_keep sep s' with
      | Some (l, r) => Some (String a l, r)
      | None => if bool_decide (a = sep) then Some (String a EmptyString, s')
                else None
      end
  end.

(** The longest prefix free of the characters of [stops], and the rest. *)
Fixpoint span_until (stops : string) (s : string) : string * string :=
  match s with
  | EmptyString => (EmptyString, EmptyString)
  | String a s' =>
      if has_char a stops then (EmptyString, s)
      else let '(l, r) := span_until stops s' in (String a l, r)
  end.

(** [s.replace(c, "")] *)
Fixpoint remove_char (c : ascii) (s : string) : string :=
  match s with
  | EmptyString => EmptyString
  | String a s' =>
      if bool_decide (a = c) then remove_char c s' else String a (remove_char c s')
  end.

Fixpoint all_chars (p : ascii -> bool) (s : string) : bool :=
  match s with
  | EmptyString => true
  | String a s' => p a && all_chars p s'
  end.

(** [sep.join(l)] *)
Fixpoint join (sep : string) (l : list string) : string :=
  match l with
  | [] => EmptyString
  | [w] => w
  | w :: ws => w +:+ sep +:+ join sep ws
  end.

(** [l[-1]] of a list known not to be empty ([split] never returns one). *)
Definition last_item (l : list string) : string := List.last l EmptyString.

End PyStr.

(** ** BeautifulSoup

    The parse tree as the [html.parser] builder hands it over.  A tag stores
    each attribute as the source text of its value (an attribute written
    without a value has the empty text, a repeated attribute keeps its last
    value); [attr_value] is the value bs4 shows for it: the whitespace
    separated list for the multi-valued attributes, the text otherwise.
    A child of a tag is a [NavigableString], [inl s], or a tag, [inr t]. *)

Module Bs4.

#[warnings="-register-all"]
Inductive Tag : Type :=
  mkTag { name : string;
          attrs : gmap string string;
          contents : list (string + Tag) }.

(** The [BeautifulSoup] object is itself a tag, named [[document]]. *)
Definition BeautifulSoup (children : list (string + Tag)) : Tag :=
  mkTag "[document]" ∅ children.

(** [tag.descendants], restricted to tags, in document order. *)
Fixpoint descendants (t : Tag) : list Tag :=
  match t with
  | mkTag _ _ cs =>
      (fix go (l : list (string + Tag)) : list Tag :=
         match l with
         | [] => []
         | inl _ :: l' => go l'
         | inr u :: l' => u :: descendants u ++ go l'
         end) cs
  end.

(** [tag.string]: the text of a tag with exactly one child, looked up
    through single tag children; [None] otherwise. *)
Fixpoint string_of (t : Tag) : option string :=
  match t with
  | mkTag _ _ [inl s] => Some s
  | mkTag _ _ [inr u] => string_of u
  | mkTag _ _ _ => None
  end.

(** [HTMLTreeBuilder.DEFAULT_CDATA_LIST_ATTRIBUTES] *)
Definition cdata_list_attribute (tag attr : string) : bool :=
  bool_decide (attr ∈ ["class"; "accesskey"; "dropzone"])
  || (bool_decide (tag ∈ ["a"; "link"]) && bool_decide (attr ∈ ["rel"; "rev"]))
  || (bool_decide (tag ∈ ["td"; "th"]) && bool_decide (attr = "headers"))
  || (bool_decide (tag = "form") && bool_decide (attr = "accept-charset"))
  || (bool_decide (tag = "object") && bool_decide (attr = "archive"))
  || (bool_decide (tag = "area") && bool_decide (attr = "rel"))
  || (bool_decide (tag = "icon") && bool_decide (attr = "sizes"))
  || (bool_decide (tag = "iframe") && bool_decide (attr = "sandbox"))
  || (bool_decide (tag = "output") && bool_decide (attr = "for")).

(** [nonwhitespace_re.findall(value)]: the maximal runs of characters that
    are not whitespace. *)
Fixpoint nonwhitespace (s : string) : list string :=
  match s with
  | EmptyString => []
  | String a s' =>
      if PyStr.isspace a then nonwhitespace s'
      else match s' with
           | EmptyString => [String a EmptyString]
           | String b _ =>
               if PyStr.isspace b then String a EmptyString :: nonwhitespace s'
               else match nonwhitespace s' with
                    | w :: ws => String a w :: ws
                    | [] => [String a EmptyString]
                    end
           end
  end.

Inductive AttrValue : Type :=
  | AStr (s : string)
  | AList (l : list string).

(** [tag.attrs.get(k)] *)
Definition attr_value (t : Tag) (k : string) : option AttrValue :=
  match attrs t !! k with
  | None => None
  | Some raw =>
      Some (if cdata_list_attribute (name t) k then AList (nonwhitespace raw)
            else AStr raw)
  end.

(** [tag.get(k)] and [tag[k]] for an attribute that is not multi-valued
    ([content] and [href] are multi-valued on no tag). *)
Definition get (t : Tag) (k : string) : option string := attrs t !! k.

(** What an attribute filter compares with: a string, or a function that is
    called with the value ([None] when the tag lacks the attribute). *)
Inductive Match : Type :=
  | MStr (s : string)
  | MFun (f : option string -> bool).

(** [SoupStrainer._matches] on one value. *)
Definition matches_one (markup : option string) (m : Match) : bool :=
  match m with
  | MFun f => f markup
  | MStr s =>
      match markup with
      | None => negb (PyStr.truthy s)
      | Some v => bool_decide (v = s)
      end
  end.

(** [SoupStrainer._matches]: a multi-valued attribute matches when one of
    its values does, or when the values joined by a space do. *)
Definition _matches (markup : option AttrValue) (m : Match) : bool :=
  match markup with
  | None => matches_one None m
  | Some (AStr s) => matches_one (Some s) m
  | Some (AList l) =>
      existsb (fun item => matches_one (Some item) m) l
      || matches_one (Some (PyStr.join " " l)) m
  end.

(** [SoupStrainer.search_tag] for a tag name and attribute filters. *)
Definition search_tag (nm : string) (filters : list (string * Match)) (t : Tag) : bool :=
  bool_decide (name t = nm)
  && forallb (fun f => _matches (attr_value t (fst f)) (snd f)) filters.

(** [soup.find(nm, **filters)]: the first matching descendant. *)
Definition find (nm : string) (filters : list (string * Match)) (soup : Tag) : option Tag :=
  List.find (search_tag nm filters) (descendants soup).

End Bs4.

(** ** What the libraries leave open

    Three library behaviours are taken as they come:
    - [check_bracketed_netloc]: whether [urllib.parse] accepts a netloc that
      holds both an opening and a closing square bracket (recent Pythons
      validate the bracketed host with the [ipaddress] module, older ones
      accept all of them);
    - [html_parser]: [BeautifulSoup(content, "html.parser")], from the bytes of
      a response to the parse tree, or the exception it raises;
    - [storage_save]: what [FieldFile.save] makes of the name it is asked to
      store a file under, given the files storage already holds: the name
      under which the file is kept, or the exception raised before anything
      is stored.  Django refuses some names, [.] and [..] among them, with
      [SuspiciousFileOperation]; which names, and the name a file ends up
      under, depend on the version of Django, on the [upload_to] of the field
      and on the storage backend, none of which is among the sources. *)

Class Externals : Type := {
  check_bracketed_netloc : string -> bool;
  html_parser : list Byte.byte -> Exc Bs4.Tag;
  storage_save : list (string * list Byte.byte) -> string -> Exc string
}.

(** ** urllib.parse *)

Module Urllib.

Definition uses_relative : list string :=
  [""; "ftp"; "http"; "gopher"; "nntp"; "imap"; "wais"; "file"; "https";
   "shttp"; "mms"; "prospero"; "rtsp"; "rtspu"; "sftp"; "svn"; "svn+ssh";
   "ws"; "wss"].

Definition uses_netloc : list string :=
  [""; "ftp"; "http"; "gopher"; "nntp"; "telnet"; "imap"; "wais"; "file";
   "mms"; "https"; "shttp"; "snews"; "prospero"; "rtsp"; "rtspu"; "rsync";
   "svn"; "svn+ssh"; "sftp"; "nfs"; "git"; "git+ssh"; "ws"; "wss"].

Definition uses_params : list string :=
  [""; "ftp"; "hdl"; "prospero"; "http"; "imap"; "https"; "shttp"; "rtsp";
   "rtspu"; "sip"; "sips"; "mms"; "sftp"; "tel"].

(** [c in scheme_chars] *)
Definition scheme_char (c : ascii) : bool :=
  PyStr.is_ascii_alpha c || PyStr.is_digit c || PyStr.has_char c "+-.".

(** [c in _WHATWG_C0_CONTROL_OR_SPACE] *)
Definition c0_control_or_space (c : ascii) : bool := Nat.leb (PyStr.code c) 32.

(** Removal of [_UNSAFE_URL_BYTES_TO_REMOVE]: tab, carriage return, newline. *)
Definition remove_unsafe (s : string) : string :=
  PyStr.remove_char "010"%char
    (PyStr.remove_char "013"%char (PyStr.remove_char "009"%char s)).

Record SplitResult : Type := mkSplit {
  s_scheme : string; s_netloc : string; s_path : string;
  s_query : string; s_fragment : string }.

Record ParseResult : Type := mkParse {
  scheme : string; netloc : string; path : string;
  params : string; query : string; fragment : string }.

(** The scheme test of [urlsplit]: the text before the first [:] is a scheme
    when it is not empty, starts with an ASCII letter and holds scheme
    characters only. *)
Definition split_scheme (url scheme : string) : string * string :=
  match PyStr.partition ":"%char url with
  | Some (String a _ as pre, rest) =>
      if PyStr.is_ascii_alpha a && PyStr.all_chars scheme_char pre
      then (PyStr.lower pre, rest)
      else (scheme, url)
  | _ => (scheme, url)
  end.

(** [url.split(c, 1)] guarded by [c in url] *)
Definition split_once (c : ascii) (url : string) : string * string :=
  match PyStr.partition c url with
  | Some (l, r) => (l, r)
  | None => (url, EmptyString)
  end.

Section Parse.
Context `{Externals}.

(** [_splitnetloc(url, 2)] and the bracket checks that follow it. *)
Definition split_netloc (url : string) : Exc (string * string) :=
  match url with
  | String "/" (String "/" rest) =>
      let '(netloc, url') := PyStr.span_until "/?#" rest in
      let lb := PyStr.has_char "["%char netloc in
      let rb := PyStr.has_char "]"%char netloc in
      if (lb && negb rb) || (rb && negb lb) then Raised "Invalid IPv6 URL"
      else if lb && rb && negb (check_bracketed_netloc netloc)
           then Raised "Invalid IPv6 URL"
           else Value (netloc, url')
  | _ => Value (EmptyString, url)
  end.

(** [urlsplit(url, scheme)].  [_checknetloc] never raises on code points
    below 256 (none of them normalises under NFKC to one of [/?#@:]), so it
    leaves no trace here. *)
Definition urlsplit (url scheme : string) : Exc SplitResult :=
  let url := PyStr.lstrip_by c0_control_or_space url in
  let scheme := PyStr.strip_by c0_control_or_space scheme in
  let url := remove_unsafe url in
  let scheme := remove_unsafe scheme in
  let '(scheme, url) := split_scheme url scheme in
  try! nu <- split_netloc url;
  let '(url, fragment) := split_once "#"%char (snd nu) in
  let '(url, query) := split_once "?"%char url in
  Value (mkSplit scheme (fst nu) url query fragment).

(** [_splitparams(url)], called when [;] occurs in [url]. *)
Definition _splitparams (url : string) : string * string :=
  match PyStr.rpartition_keep "/"%char url with
  | Some (head, tail) =>
      match PyStr.partition ";"%char tail with
      | Some (l, r) => (head +:+ l, r)
      | None => (url, EmptyString)
      end
  | None => split_once ";"%char url
  end.

(** [urlparse(url, scheme)] *)
Definition urlparse (url scheme : string) : Exc ParseResult :=
  try! r <- urlsplit url scheme;
  let '(url, params) :=
    if bool_decide (s_scheme r ∈ uses_params) && PyStr.has_char ";"%char (s_path r)
    then _splitparams (s_path r)
    else (s_path r, EmptyString) in
  Value (mkParse (s_scheme r) (s_netloc r) url params (s_query r) (s_fragment r)).

End Parse.

(** [urlunsplit((scheme, netloc, url, query, fragment))] *)
Definition urlunsplit (scheme netloc url query fragment : string) : string :=
  let url :=
    if PyStr.truthy netloc
       || (PyStr.truthy scheme && bool_decide (scheme ∈ uses_netloc)
           && negb (PyStr.startswith url "//"))
    then
      let url := if PyStr.truthy url && negb (PyStr.startswith url "/")
                 then "/" +:+ url else url in
      "//" +:+ netloc +:+ url
    else url in
  let url := if PyStr.truthy scheme then scheme +:+ ":" +:+ url else url in
  let url := if PyStr.truthy query then url +:+ "?" +:+ query else url in
  if PyStr.truthy fragment then url +:+ "#" +:+ fragment else url.

(** [urlunparse((scheme, netloc, url, params, query, fragment))] *)
Definition urlunparse (scheme netloc url params query fragment : string) : string :=
  let url := if PyStr.truthy params then url +:+ ";" +:+ params else url in
  urlunsplit scheme netloc url query fragment.

(** [segments[1:-1] = filter(None, segments[1:-1])] *)
Definition filter_inner (segments : list string) : list string :=
  match segments with
  | [] => []
  | [a] => [a]
  | a :: rest =>
      a :: List.filter PyStr.truthy (removelast rest) ++ [PyStr.last_item rest]
  end.

(** The loop of [urljoin] over the segments: [..] pops, [.] is skipped. *)
Definition resolve_step (resolved_path : list string) (seg : string) : list string :=
  if bool_decide (seg = "..") then removelast resolved_path
  else if bool_decide (seg = ".") then resolved_path
  else resolved_path ++ [seg].

Section Join.
Context `{Externals}.

(** [urljoin(base, url)] *)
Definition urljoin (base url : string) : Exc string :=
  if negb (PyStr.truthy base) then Value url
  else if negb (PyStr.truthy url) then Value base
  else
    try! b <- urlparse base EmptyString;
    try! u <- urlparse url (scheme b);
    if negb (bool_decide (scheme u = scheme b))
       || negb (bool_decide (scheme u ∈ uses_relative))
    then Value url
    else if bool_decide (scheme u ∈ uses_netloc) && PyStr.truthy (netloc u)
    then Value (urlunparse (scheme u) (netloc u) (path u) (params u)
                           (query u) (fragment u))
    else
      let netloc' := if bool_decide (scheme u ∈ uses_netloc) then netloc b
                     else netloc u in
      if negb (PyStr.truthy (path u)) && negb (PyStr.truthy (params u))
      then
        let query' := if negb (PyStr.truthy (query u)) then query b else query u in
        Value (urlunparse (scheme u) netloc' (path b) (params b) query' (fragment u))
      else
        let base_parts := PyStr.split "/"%char (path b) in
        let base_parts :=
          if negb (bool_decide (PyStr.last_item base_parts = EmptyString))
          then removelast base_parts else base_parts in
        let segments :=
          if PyStr.startswith (path u) "/" then PyStr.split "/"%char (path u)
          else filter_inner (base_parts ++ PyStr.split "/"%char (path u)) in
        let resolved_path := fold_left resolve_step segments [] in
        let resolved_path :=
          if bool_decide (PyStr.last_item segments ∈ ["."; ".."])
          then resolved_path ++ [EmptyString] else resolved_path in
        let joined := PyStr.join "/" resolved_path in
        Value (urlunparse (scheme u) netloc'
                 (if PyStr.truthy joined then joined else "/")
                 (params u) (query u) (fragment u)).

End Join.

End Urllib.

(** ** The record and the form *)

(** Modelled from the spec: the [Quoteback] model, declared in
    [blog/models.py], which is not among the sources.  The fields are those
    of the specification's data model, under the names the admin's fieldsets
    give them.  [pk] is [None] until the record has been stored.  [favicon]
    is the name of the attached file, empty while no file is attached: a
    [FieldFile] is true exactly when its name is not empty. *)
Record Quoteback : Type := mkQuoteback {
  pk : option Z;
  quote_text : string;
  commentary : string;
  title : string;
  slug : string;
  source_url : string;
  page_title : string;
  author : string;
  favicon : string;
  tags : list Z;
  created : Z;
  is_draft : bool;
  series : option Z;
  card_image : string;
  metadata : string;
  import_ref : string }.

Definition set_page_title (q : Quoteback) (v : string) : Quoteback :=
  mkQuoteback (pk q) (quote_text q) (commentary q) (title q) (slug q)
    (source_url q) v (author q) (favicon q) (tags q) (created q)
    (is_draft q) (series q) (card_image q) (metadata q) (import_ref q).

Definition set_author (q : Quoteback) (v : string) : Quoteback :=
  mkQuoteback (pk q) (quote_text q) (commentary q) (title q) (slug q)
    (source_url q) (page_title q) v (favicon q) (tags q) (created q)
    (is_draft q) (series q) (card_image q) (metadata q) (import_ref q).

Definition set_favicon (q : Quoteback) (v : string) : Quoteback :=
  mkQuoteback (pk q) (quote_text q) (commentary q) (title q) (slug q)
    (source_url q) (page_title q) (author q) v (tags q) (created q)
    (is_draft q) (series q) (card_image q) (metadata q) (import_ref q).

(** A cleaned form value. *)
Inductive FieldValue : Type :=
  | VBool (b : bool)
  | VStr (s : string)
  | VInt (z : Z).

(** [bool(d.get(k))]: a missing key gives [None], which is false. *)
Definition value_truthy (v : option FieldValue) : bool :=
  match v with
  | None => false
  | Some (VBool b) => b
  | Some (VStr s) => PyStr.truthy s
  | Some (VInt z) => negb (z =? 0)
  end.

(** [bool(instance.pk)]: false for [None] and for 0. *)
Definition pk_truthy (k : option Z) : bool :=
  match k with
  | None => false
  | Some z => negb (z =? 0)
  end.

(** The form at the time [save] runs.  [instance] is what
    [super().save(commit=False)] returns: the record with the cleaned form
    data applied and nothing written yet. *)
Record QuotebackAdminForm : Type := mkForm {
  cleaned_data : gmap string FieldValue;
  changed_data : list string;
  instance : Quoteback }.

(** [form.has_changed()] is [bool(self.changed_data)]. *)
Definition has_changed (self : QuotebackAdminForm) : bool :=
  match changed_data self with
  | [] => false
  | _ :: _ => true
  end.

(** ** The world: network, logger, storage, database *)

Record Request : Type := mkRequest {
  req_url : string;
  req_headers : gmap string string;
  req_timeout : Z }.

Record Response : Type := mkResponse {
  status_code : Z;
  content : list Byte.byte }.

(** [ContentFile(content, name=filename)]; a [ContentFile] is always true. *)
Record ContentFile : Type := mkContentFile {
  cf_content : list Byte.byte;
  cf_name : string }.

(** [network] answers a request, given the requests sent before it, with a
    response or with the exception [requests.get] raises (connection error,
    timeout, invalid URL, too many redirects).  The other fields grow:
    the requests sent, the warnings logged, the files written to storage,
    the records written by [instance.save()], the calls of [save_m2m()]. *)
Record World : Type := mkWorld {
  network : list Request -> Request -> Exc Response;
  sent : list Request;
  warnings : list string;
  files : list (string * list Byte.byte);
  saved : list Quoteback;
  m2m_saved : nat }.

Definition M (A : Type) : Type := World -> A * World.

Definition ret {A} (a : A) : M A := fun w => (a, w).

Definition bind {A B} (m : M A) (k : A -> M B) : M B :=
  fun w => let '(a, w') := m w in k a w'.

Notation "'run!' x <- m ; k" := (bind m (fun x => k))
  (at level 100, x pattern, m at next level, right associativity).

Module Effects.

(** The five ways the world changes. *)
Definition sending (r : Request) (w : World) : World :=
  mkWorld (network w) (sent w ++ [r]) (warnings w) (files w) (saved w)
    (m2m_saved w).

Definition warning (msg : string) (w : World) : World :=
  mkWorld (network w) (sent w) (warnings w ++ [msg]) (files w) (saved w)
    (m2m_saved w).

Definition storing (name : string) (data : list Byte.byte) (w : World) : World :=
  mkWorld (network w) (sent w) (warnings w) (files w ++ [(name, data)])
    (saved w) (m2m_saved w).

Definition saving (q : Quoteback) (w : World) : World :=
  mkWorld (network w) (sent w) (warnings w) (files w) (saved w ++ [q])
    (m2m_saved w).

Definition saving_m2m (w : World) : World :=
  mkWorld (network w) (sent w) (warnings w) (files w) (saved w)
    (S (m2m_saved w)).

(** [requests.get(url, headers=headers, timeout=timeout)] *)
Definition requests_get (url : string) (headers : gmap string string)
    (timeout : Z) : M (Exc Response) :=
  fun w =>
    let r := mkRequest url headers timeout in
    (network w (sent w) r, sending r w).

(** [response.raise_for_status()]: [HTTPError] for a status from 400 to 599. *)
Definition raise_for_status (r : Response) : Exc unit :=
  if (400 <=? status_code r) && (status_code r <? 500) then Raised "Client Error"
  else if (500 <=? status_code r) && (status_code r <? 600) then Raised "Server Error"
  else Value tt.

(** [logger.warning(msg)] *)
Definition logger_warning (msg : string) : M unit :=
  fun w => (tt, warning msg w).

(** [instance.save()]: the record is written as it stands.  The key the
    database gives a new record is not modelled; nothing reads it after the
    write. *)
Definition Model_save (q : Quoteback) : M unit :=
  fun w => (tt, saving q w).

(** [self.save_m2m()] *)
Definition save_m2m : M unit :=
  fun w => (tt, saving_m2m w).

(** [instance.favicon.save(name, content, save=False)]: the file goes to
    storage and the field takes the name storage gave it; the record itself
    is not written.  When the name is refused the call raises: nothing is
    stored and the field is as it was.  The result is the record as the call
    leaves it and the exception it raised, if it did. *)
Definition FieldFile_save `{Externals} (q : Quoteback) (name : string)
    (f : ContentFile) : M (Quoteback * option string) :=
  fun w =>
    match storage_save (files w) name with
    | Value stored => ((set_favicon q stored, None), storing stored (cf_content f) w)
    | Raised e => ((q, Some e), w)
    end.

End Effects.

(** ** blog/quoteback_utils.py *)

Definition USER_AGENT : string :=
  "Mozilla/5.0 (Macintosh; Intel Mac OS X 10_15_7) AppleWebKit/537.36".

Definition HEADERS : gmap string string := {[ "User-Agent" := USER_AGENT ]}.

(** The test [tag and tag.get(k)] together with the value [tag[k]] it guards:
    [Some v] when the tag was found and its attribute [k] is a string that is
    not empty. *)
Definition found_attr (tag : option Bs4.Tag) (k : string) : option string :=
  match tag with
  | None => None
  | Some t =>
      match Bs4.get t k with
      | Some v => if PyStr.truthy v then Some v else None
      | None => None
      end
  end.

(** The test [tag and tag.string] with the value [tag.string]. *)
Definition found_string (tag : option Bs4.Tag) : option string :=
  match tag with
  | None => None
  | Some t =>
      match Bs4.string_of t with
      | Some s => if PyStr.truthy s then Some s else None
      | None => None
      end
  end.

Definition _extract_title (soup : Bs4.Tag) (url : string) : string :=
  let og_title := Bs4.find "meta" [("property", Bs4.MStr "og:title")] soup in
  match found_attr og_title "content" with
  | Some c => c
  | None =>
  let twitter_title := Bs4.find "meta" [("name", Bs4.MStr "twitter:title")] soup in
  match found_attr twitter_title "content" with
  | Some c => c
  | None =>
  let title_tag := Bs4.find "title" [] soup in
  match found_string title_tag with
  | Some s => PyStr.strip s
  | None => url
  end end end.

Definition _extract_author (soup : Bs4.Tag) : string :=
  let og_author := Bs4.find "meta" [("property", Bs4.MStr "article:author")] soup in
  match found_attr og_author "content" with
  | Some c => c
  | None =>
  let meta_author := Bs4.find "meta" [("name", Bs4.MStr "author")] soup in
  match found_attr meta_author "content" with
  | Some c => c
  | None =>
  let twitter_creator := Bs4.find "meta" [("name", Bs4.MStr "twitter:creator")] soup in
  match found_attr twitter_creator "content" with
  | Some creator => PyStr.lstrip "@" creator
  | None => EmptyString
  end end end.

(** [lambda x: x and "icon" in x.lower()] *)
Definition rel_has_icon (x : option string) : bool :=
  match x with
  | None => false
  | Some x => PyStr.truthy x && PyStr.contains "icon" (PyStr.lower x)
  end.

Section Utils.
Context `{Externals}.

Definition _extract_favicon_url (soup : Bs4.Tag) (base_url : string) : Exc string :=
  let icon_link := Bs4.find "link" [("rel", Bs4.MFun rel_has_icon)] soup in
  match found_attr icon_link "href" with
  | Some href => Urllib.urljoin base_url href
  | None =>
  let apple_icon := Bs4.find "link" [("rel", Bs4.MStr "apple-touch-icon")] soup in
  match found_attr apple_icon "href" with
  | Some href => Urllib.urljoin base_url href
  | None =>
  try! parsed <- Urllib.urlparse base_url EmptyString;
  Value (Urllib.scheme parsed +:+ "://" +:+ Urllib.netloc parsed +:+ "/favicon.ico")
  end end.

(** The body of the [try] of [fetch_page_metadata] up to the parse. *)
Definition get_soup (r : Exc Response) : Exc Bs4.Tag :=
  try! response <- r;
  try! _ <- Effects.raise_for_status response;
  html_parser (content response).

(** The [try] block of [fetch_page_metadata]: the dictionary as far as the
    block filled it, and the exception that ended the block, if one did. *)
Definition try_fetch (url : string) (r : Exc Response)
    (metadata : gmap string string) : gmap string string * option string :=
  match get_soup r with
  | Raised e => (metadata, Some e)
  | Value soup =>
      let metadata := <[ "title" := _extract_title soup url ]> metadata in
      let metadata := <[ "author" := _extract_author soup ]> metadata in
      match _extract_favicon_url soup url with
      | Raised e => (metadata, Some e)
      | Value f => (<[ "favicon_url" := f ]> metadata, None)
      end
  end.

Definition fetch_page_metadata (url : string) (timeout : Z) : M (gmap string string) :=
  let metadata : gmap string string :=
    {[ "title" := EmptyString; "author" := EmptyString;
       "favicon_url" := EmptyString ]} in
  run! r <- Effects.requests_get url HEADERS timeout;
  let '(metadata, raised) := try_fetch url r metadata in
  match raised with
  | Some e =>
      run! _ <- Effects.logger_warning
                  ("Error fetching metadata from " +:+ url +:+ ": " +:+ e);
      ret metadata
  | None => ret metadata
  end.

(** The body of the [try] of [download_favicon]. *)
Definition favicon_file_of (favicon_url : string) (r : Exc Response) : Exc ContentFile :=
  try! response <- r;
  try! _ <- Effects.raise_for_status response;
  try! parsed <- Urllib.urlparse favicon_url EmptyString;
  let filename := PyStr.last_item (PyStr.split "/"%char (Urllib.path parsed)) in
  let filename := if negb (PyStr.has_char "."%char filename)
                  then "favicon.ico" else filename in
  Value (mkContentFile (content response) filename).

Definition download_favicon (favicon_url : string) (timeout : Z) : M (option ContentFile) :=
  run! r <- Effects.requests_get favicon_url HEADERS timeout;
  match favicon_file_of favicon_url r with
  | Value f => ret (Some f)
  | Raised e =>
      run! _ <- Effects.logger_warning
                  ("Error downloading favicon from " +:+ favicon_url +:+ ": " +:+ e);
      ret None
  end.

(** ** blog/admin.py: [QuotebackAdminForm.save] *)

(** [should_fetch], lines 94 to 98: [not a or not b or c and d]. *)
Definition should_fetch (self : QuotebackAdminForm) (instance : Quoteback) : bool :=
  negb (pk_truthy (pk instance))
  || negb (PyStr.truthy (page_title instance))
  || (has_changed self && bool_decide ("source_url" ∈ changed_data self)).

(** [bool(metadata.get(k))] with the value [metadata[k]]. *)
Definition found_key (metadata : gmap string string) (k : string) : option string :=
  match metadata !! k with
  | Some v => if PyStr.truthy v then Some v else None
  | None => None
  end.

(** Lines 104 to 114: the fetched metadata is merged into the record.  The
    result is the record as these lines leave it and the exception that
    ended them, if one did: line 114 is outside every [try], and what it
    raises leaves [save].  The record is one object, the one the form keeps
    as [self.instance], so it has a state either way. *)
Definition merge (instance : Quoteback) (metadata : gmap string string)
    : M (Quoteback * option string) :=
  let instance :=
    if negb (PyStr.truthy (page_title instance))
    then set_page_title instance (default EmptyString (metadata !! "title"))
    else instance in
  let instance :=
    if negb (PyStr.truthy (author instance)) then
      match found_key metadata "author" with
      | Some a => set_author instance a
      | None => instance
      end
    else instance in
  match found_key metadata "favicon_url" with
  | Some favicon_url =>
      if negb (PyStr.truthy (favicon instance)) then
        run! favicon_file <- download_favicon favicon_url 10;
        match favicon_file with
        | Some f => Effects.FieldFile_save instance (cf_name f) f
        | None => ret (instance, None)
        end
      else ret (instance, None)
  | None => ret (instance, None)
  end.

(** Lines 91 to 114: fetch when asked to and needed, then merge. *)
Definition fetch_and_merge (self : QuotebackAdminForm) (instance : Quoteback)
    : M (Quoteback * option string) :=
  if value_truthy (cleaned_data self !! "fetch_metadata")
     && PyStr.truthy (source_url instance)
  then
    if should_fetch self instance then
      run! metadata <- fetch_page_metadata (source_url instance) 10;
      merge instance metadata
    else ret (instance, None)
  else ret (instance, None).

(** [save]: the record it returns, or, when line 114 raised, the record as
    the exception leaves it together with that exception; lines 116 to 120
    are not reached then. *)
Definition save (self : QuotebackAdminForm) (commit : bool)
    : M (Quoteback * option string) :=
  let instance := instance self in
  run! merged <- fetch_and_merge self instance;
  match snd merged with
  | Some e => ret (fst merged, Some e)
  | None =>
      let instance := fst merged in
      if commit then
        run! _ <- Effects.Model_save instance;
        run! _ <- Effects.save_m2m;
        ret (instance, None)
      else ret (instance, None)
  end.

End Utils.

(** ** blog/admin.py: [TagAdmin] *)

Module TagAdmin.

(** The [Tag] and [PreviousTagName] models are declared in [blog/models.py],
    which is not among the sources; the fields are the ones [TagAdmin] reads
    and writes: the key and the name of a tag, and for a previous name the
    tag it belonged to and the name. *)
Record Tag : Type := mkTag {
  pk : option Z;
  tag : string }.

(** The two tables: the name of each stored tag by its key, and the
    previous names in the order they were recorded. *)
Record Database : Type := mkDatabase {
  tag_rows : gmap Z string;
  previous_names : list (option Z * string) }.

(** The queries [get_search_results] builds are left to the database: the
    rows of a queryset whose tag starts with a text in any letter case, and
    the rows of a queryset ordered by the length of the tag. *)
Class Orm : Type := {
  filter_istartswith : string -> list Tag -> list Tag;
  order_by_length : list Tag -> list Tag }.

(** A queryset is the list of its rows; the second component is the flag
    that the result may hold duplicates. *)
Definition get_search_results `{Orm} (queryset : list Tag) (search_term : string)
    : list Tag * bool :=
  let search_term := PyStr.strip search_term in
  if PyStr.truthy search_term
  then (order_by_length (filter_istartswith search_term queryset), false)
  else (queryset, false).

(** [Tag.objects.get(pk=k)]: the stored tag, or [Tag.DoesNotExist]. *)
Definition objects_get (db : Database) (k : option Z) : Exc Tag :=
  match k with
  | Some z =>
      match tag_rows db !! z with
      | Some name => Value (mkTag (Some z) name)
      | None => Raised "Tag matching query does not exist."
      end
  | None => Raised "Tag matching query does not exist."
  end.

(** [PreviousTagName.objects.create(tag=obj, previous_name=name)] *)
Definition objects_create (obj : Tag) (name : string) (db : Database) : Database :=
  mkDatabase (tag_rows db) (previous_names db ++ [(pk obj, name)]).

(** [super().save_model(request, obj, form, change)], that is [obj.save()]:
    a tag with a key is written under it, a tag without one is given a key
    the table does not hold.  The write is taken to succeed. *)
Definition Model_save (obj : Tag) (db : Database) : Tag * Database :=
  match pk obj with
  | Some z => (obj, mkDatabase (<[ z := tag obj ]> (tag_rows db)) (previous_names db))
  | None =>
      let z := fresh (dom (tag_rows db)) in
      (mkTag (Some z) (tag obj),
       mkDatabase (<[ z := tag obj ]> (tag_rows db)) (previous_names db))
  end.

(** [save_model(request, obj, form, change)]: the tag as saved and the
    database after it, or the exception that left the database as it was. *)
Definition save_model (obj : Tag) (change : bool) (db : Database)
    : Exc (Tag * Database) :=
  try! db <-
    (if change then
       try! old_obj <- objects_get db (pk obj);
       if negb (bool_decide (tag old_obj = tag obj))
       then Value (objects_create obj (tag old_obj) db)
       else Value db
     else Value db);
  Value (Model_save obj db).

(** The same stored tag saved under one name after another. *)
Fixpoint save_each (z : Z) (names : list string) (db : Database) : Exc Database :=
  match names with
  | [] => Value db
  | name :: names' =>
      try! saved <- save_model (mkTag (Some z) name) true db;
      save_each z names' (snd saved)
  end.

(** The names that a sequence of names replaces, starting from [current]:
    each name that is followed by a different one. *)
Fixpoint replaced (current : string) (names : list string) : list string :=
  match names with
  | [] => []
  | name :: names' =>
      (if bool_decide (current = name) then [] else [current])
      ++ replaced name names'
  end.

End TagAdmin.

(** ** The vocabulary of the specification

    The specification speaks of "the first non-empty value", of "the
    content of a meta tag", of "a link whose rel contains icon".  These are
    defined here in its words, on the parse tree directly and without the
    filter machinery of bs4, to be compared with what the code computes. *)

(** The first value of the list that is not empty, [fallback] when all are. *)
Definition first_nonempty (candidates : list string) (fallback : string) : string :=
  match List.find PyStr.truthy candidates with
  | Some v => v
  | None => fallback
  end.

(** The first tag named [nm] that satisfies [p], in document order. *)
Definition first_tag (nm : string) (p : Bs4.Tag -> bool) (soup : Bs4.Tag) : option Bs4.Tag :=
  List.find (fun t => bool_decide (Bs4.name t = nm) && p t) (Bs4.descendants soup).

(** The attribute [k] of an optional tag, empty when either is missing. *)
Definition attr_or_empty (t : option Bs4.Tag) (k : string) : string :=
  match t with
  | Some t => default EmptyString (Bs4.attrs t !! k)
  | None => EmptyString
  end.

(** The content of the meta tag whose attribute [k] is [v]. *)
Definition meta_content (soup : Bs4.Tag) (k v : string) : string :=
  attr_or_empty
    (first_tag "meta" (fun t => bool_decide (Bs4.attrs t !! k = Some v)) soup)
    "content".

(** The text of the title element. *)
Definition title_text (soup : Bs4.Tag) : string :=
  match first_tag "title" (fun _ => true) soup with
  | Some t => default EmptyString (Bs4.string_of t)
  | None => EmptyString
  end.

(** The rel attribute, as written, contains [icon] in any letter case. *)
Definition rel_contains_icon (t : Bs4.Tag) : bool :=
  match Bs4.attrs t !! "rel" with
  | Some raw => PyStr.contains "icon" (PyStr.lower raw)
  | None => false
  end.

(** One of the values of the rel attribute, which whitespace separates, is
    the link type [v]. *)
Definition rel_is (v : string) (t : Bs4.Tag) : bool :=
  match Bs4.attrs t !! "rel" with
  | Some raw => bool_decide (v ∈ Bs4.nonwhitespace raw)
  | None => false
  end.

(** The href of the first link element that satisfies [p], empty when that
    element has none or no link element satisfies [p]. *)
Definition link_href (p : Bs4.Tag -> bool) (soup : Bs4.Tag) : string :=
  attr_or_empty (first_tag "link" p soup) "href".




(** The final segment of a path. *)
Definition final_segment (path : string) : string :=
  PyStr.last_item (PyStr.split "/"%char path).

(** The file name the downloader derives from a path. *)
Definition favicon_filename (path : string) : string :=
  if PyStr.has_char "."%char (final_segment path) then final_segment path
  else "favicon.ico".

(** The metadata result with all three fields empty. *)
Definition empty_metadata : gmap string string :=
  {[ "title" := EmptyString; "author" := EmptyString;
     "favicon_url" := EmptyString ]}.

(** The GET failed: [requests.get] raised (a network error, a timeout), or
    the response carries an error status, 4xx or 5xx. *)
Definition get_failed (r : Exc Response) : Prop :=
  match r with
  | Raised _ => True
  | Value response => 400 <= status_code response < 600
  end.

(** The GET succeeded with [response]: nothing raised and the status is no
    error status. *)
Definition get_succeeded (r : Exc Response) (response : Response) : Prop :=
  r = Value response /\ ~ (400 <= status_code response < 600).


(** Two records agree on every field but page title, author and favicon. *)
Definition same_but_fetched (r r' : Quoteback) : Prop :=
  pk r' = pk r /\ quote_text r' = quote_text r /\ commentary r' = commentary r
  /\ title r' = title r /\ slug r' = slug r /\ source_url r' = source_url r
  /\ tags r' = tags r /\ created r' = created r /\ is_draft r' = is_draft r
  /\ series r' = series r /\ card_image r' = card_image r
  /\ metadata r' = metadata r /\ import_ref r' = import_ref r.

(** The condition under which [save] fetches, lines 92 to 98. *)
Definition fetches (self : QuotebackAdminForm) (record : Quoteback) : bool :=
  value_truthy (cleaned_data self !! "fetch_metadata")
  && PyStr.truthy (source_url record)
  && should_fetch self record.

(** Every character of [s] occurs in [t]. *)
Definition chars_within (s t : string) : Prop :=
  forall c, PyStr.has_char c s = true -> PyStr.has_char c t = true.

(** A scheme as [urlsplit] returns it when it finds one: it starts with an
    ASCII letter, holds scheme characters only and is in lower case. *)
Definition scheme_shaped (s : string) : Prop :=
  PyStr.all_chars Urllib.scheme_char s = true
  /\ PyStr.lower s = s
  /\ match s with
     | String a _ => PyStr.is_ascii_alpha a = true
     | EmptyString => False
     end.

(** The bracket checks of [urlsplit] let the netloc pass. *)
Definition brackets_pass `{Externals} (n : string) : bool :=
  let lb := PyStr.has_char "["%char n in
  let rb := PyStr.has_char "]"%char n in
  negb ((lb && negb rb) || (rb && negb lb))
  && negb (lb && rb && negb (check_bracketed_netloc n)).

(** A netloc as [urlsplit] returns it: free of the characters that end a
    netloc and of the characters [urlsplit] removes, and passing the bracket
    checks. *)
Definition netloc_shaped `{Externals} (n : string) : Prop :=
  (forall c, PyStr.has_char c "/?#" = true -> PyStr.has_char c n = false)
  /\ Urllib.remove_unsafe n = n
  /\ brackets_pass n = true.

(** The run of characters up to the first whitespace, and what follows. *)
Fixpoint first_token (s : string) : string * string :=
  match s with
  | EmptyString => (EmptyString, EmptyString)
  | String a s' =>
      if PyStr.isspace a then (EmptyString, s)
      else (String a (fst (first_token s')), snd (first_token s'))
  end.

(** Empty, or starting with whitespace. *)
Definition at_boundary (s : string) : Prop :=
  match s with
  | EmptyString => True
  | String a _ => PyStr.isspace a = true
  end.

(** No whitespace character becomes, in lower case, a character of [p]. *)
Definition spaceless (p : string) : Prop :=
  forall c, PyStr.isspace c = true -> PyStr.has_char (PyStr.lower_char c) p = false.

(** ** Sample pages

    The pages the specification's examples speak of, and a page whose title
    element holds one blank. *)

Definition element (nm : string) (a : gmap string string)
    (children : list (string + Bs4.Tag)) : string + Bs4.Tag :=
  inr (Bs4.mkTag nm a children).


(** A page with a paragraph and nothing else. *)
Definition page_bare : Bs4.Tag :=
  Bs4.BeautifulSoup
    [element "html" ∅ [element "body" ∅ [element "p" ∅ [inl "Hello"]]]].

(** [<meta name="twitter:creator" content="@alice">] *)
Definition page_twitter_creator : Bs4.Tag :=
  Bs4.BeautifulSoup
    [element "html" ∅
       [element "head" ∅
          [element "meta" {[ "name" := "twitter:creator"; "content" := "@alice" ]} []]]].

(** [<link rel="shortcut icon" href="/f.png">] *)
Definition page_shortcut_icon : Bs4.Tag :=
  Bs4.BeautifulSoup
    [element "html" ∅
       [element "head" ∅
          [element "link" {[ "rel" := "shortcut icon"; "href" := "/f.png" ]} []]]].

(** [<link rel="icon"><link rel="apple-touch-icon" href="/a.png">] *)
Definition page_two_icons : Bs4.Tag :=
  Bs4.BeautifulSoup
    [element "html" ∅
       [element "head" ∅
          [element "link" {[ "rel" := "icon" ]} [];
           element "link" {[ "rel" := "apple-touch-icon"; "href" := "/a.png" ]} []]]].

(** [<title> </title>] *)
Definition page_blank_title : Bs4.Tag :=
  Bs4.BeautifulSoup
    [element "html" ∅ [element "head" ∅ [element "title" ∅ [inl " "]]]].


(** [<title>T</title><link rel="icon" href="https://x.com/..">] *)
Definition page_dotted_icon : Bs4.Tag :=
  Bs4.BeautifulSoup
    [element "html" ∅
       [element "head" ∅
          [element "title" ∅ [inl "T"];
           element "link" {[ "rel" := "icon"; "href" := "https://x.com/.." ]} []]]].

(** ** A sample world

    A parser that reads every document as the page with the shortcut icon, a
    storage that refuses the names [.] and [..] and keeps every other name
    as it is given, and a network that serves the page at [https://x.com/a]
    and has nothing else.  A second parser reads every document as the page
    whose icon is at [https://x.com/..]. *)

Definition sample_storage (held : list (string * list Byte.byte)) (name : string)
    : Exc string :=
  if bool_decide (name ∈ ["."; ".."]) then Raised "SuspiciousFileOperation"
  else Value name.

Definition sample_externals : Externals := {|
  check_bracketed_netloc := fun _ => true;
  html_parser := fun _ => Value page_shortcut_icon;
  storage_save := sample_storage |}.

Definition dotted_externals : Externals := {|
  check_bracketed_netloc := fun _ => true;
  html_parser := fun _ => Value page_dotted_icon;
  storage_save := sample_storage |}.

Definition sample_content : list Byte.byte :=
  String.list_byte_of_string "<link rel=shortcut-icon href=/f.png>".

Definition sample_network (history : list Request) (r : Request) : Exc Response :=
  if bool_decide (req_url r = "https://x.com/a")
  then Value (mkResponse 200 sample_content)
  else Value (mkResponse 404 []).

Definition network_down (history : list Request) (r : Request) : Exc Response :=
  Raised "Connection refused".

(** A network that serves every URL. *)
Definition network_up (history : list Request) (r : Request) : Exc Response :=
  Value (mkResponse 200 sample_content).


(** A network that answers every request with 300 Multiple Choices. *)
Definition network_choices (history : list Request) (r : Request) : Exc Response :=
  Value (mkResponse 300 sample_content).

Definition fresh_world (net : list Request -> Request -> Exc Response) : World :=
  mkWorld net [] [] [] [] 0.

(** A new record with a source URL and nothing fetched yet. *)
Definition new_quoteback : Quoteback :=
  mkQuoteback None "To be, or not to be" "" "" "" "https://x.com/a" "" "" ""
    [] 0 false None "" "" "".

(** A stored record that has its page title. *)
Definition titled_quoteback : Quoteback :=
  mkQuoteback (Some 7) "To be, or not to be" "" "" "" "https://x.com/a"
    "Existing" "" "" [] 0 false None "" "" "".

Definition new_form : QuotebackAdminForm :=
  mkForm {[ "fetch_metadata" := VBool true ]} ["quote_text"; "source_url"]
    new_quoteback.

(** A tag table with two tags, and queries that keep every row. *)
Definition sample_tags : TagAdmin.Database :=
  TagAdmin.mkDatabase {[ 1 := "python"; 2 := "django" ]} [].

Definition sample_orm : TagAdmin.Orm := {|
  TagAdmin.filter_istartswith := fun _ rows => rows;
  TagAdmin.order_by_length := fun rows => rows |}.

Definition titled_form : QuotebackAdminForm :=
  mkForm {[ "fetch_metadata" := VBool true ]} ["commentary"] titled_quoteback.

(** * Properties *)

(** ** Strings *)

Lemma append_cons (a : ascii) (s t : string) :
  String a s +:+ t = String a (s +:+ t).
Proof. reflexivity. Qed.

Lemma append_nil_l (t : string) : EmptyString +:+ t = t.
Proof. reflexivity. Qed.

Lemma truthy_true (s : string) : PyStr.truthy s = true <-> s <> EmptyString.
Proof. destruct s; simpl; split; intros; congruence. Qed.

Lemma truthy_false (s : string) : PyStr.truthy s = false <-> s = EmptyString.
Proof. destruct s; simpl; split; intros; congruence. Qed.

Lemma has_char_tail (c a : ascii) (p : string) :
  PyStr.has_char c (String a p) = false -> PyStr.has_char c p = false.
Proof. simpl. intros H. apply orb_false_iff in H. tauto. Qed.

Lemma spaceless_tail (a : ascii) (p : string) : spaceless (String a p) -> spaceless p.
Proof. intros H c Hc. eapply has_char_tail, H, Hc. Qed.

Lemma spaceless_icon : spaceless "icon".
Proof.
  intros c. destruct c as [[] [] [] [] [] [] [] []]; vm_compute; congruence.
Qed.

(** Up to a boundary, a prefix test only sees the text before it. *)
Lemma startswith_boundary (p w rest : string) :
  spaceless p -> at_boundary rest ->
  PyStr.startswith (PyStr.lower (w +:+ rest)) p = PyStr.startswith (PyStr.lower w) p.
Proof.
  revert p. induction w as [|a w IH]; intros p Hp Hrest.
  - rewrite append_nil_l. destruct p as [|b p]; [by destruct rest|].
    destruct rest as [|c r]; [done|]. simpl in *.
    specialize (Hp c Hrest). simpl in Hp. apply orb_false_iff in Hp as [Hb _].
    apply bool_decide_eq_false in Hb.
    rewrite bool_decide_false; [done|]. congruence.
  - rewrite append_cons. destruct p as [|b p]; [done|]. simpl.
    rewrite IH; [done| by eapply spaceless_tail | done].
Qed.

Lemma contains_empty (p : string) :
  p <> EmptyString -> PyStr.contains p EmptyString = false.
Proof. by destruct p. Qed.

(** A word of [p] never straddles a boundary. *)
Lemma contains_boundary (p x rest : string) :
  spaceless p -> p <> EmptyString -> at_boundary rest ->
  PyStr.contains p (PyStr.lower (x +:+ rest))
  = PyStr.contains p (PyStr.lower x) || PyStr.contains p (PyStr.lower rest).
Proof.
  intros Hp Hne Hrest. induction x as [|a x IH].
  - rewrite append_nil_l. simpl PyStr.lower at 2. by rewrite contains_empty.
  - rewrite append_cons.
    change (PyStr.lower (String a (x +:+ rest)))
      with (PyStr.lower (String a x +:+ rest)) at 1.
    change (PyStr.contains p (PyStr.lower (String a x +:+ rest)))
      with (PyStr.startswith (PyStr.lower (String a x +:+ rest)) p
            || PyStr.contains p (PyStr.lower (x +:+ rest))).
    rewrite startswith_boundary, IH by done.
    change (PyStr.contains p (PyStr.lower (String a x)))
      with (PyStr.startswith (PyStr.lower (String a x)) p
            || PyStr.contains p (PyStr.lower x)).
    by rewrite orb_assoc.
Qed.

Lemma contains_skip_space (p : string) (a : ascii) (s : string) :
  spaceless p -> p <> EmptyString -> PyStr.isspace a = true ->
  PyStr.contains p (PyStr.lower (String a s)) = PyStr.contains p (PyStr.lower s).
Proof.
  intros Hp Hne Ha.
  change (String a s) with (EmptyString +:+ String a s) at 1.
  rewrite contains_boundary by done. simpl PyStr.lower at 1.
  rewrite contains_empty by done. simpl orb.
  change (PyStr.contains p (PyStr.lower (String a s)))
    with (PyStr.startswith (PyStr.lower (String a s)) p
          || PyStr.contains p (PyStr.lower s)).
  destruct p as [|b p]; [done|]. simpl.
  specialize (Hp a Ha). simpl in Hp. apply orb_false_iff in Hp as [Hb _].
  apply bool_decide_eq_false in Hb. rewrite bool_decide_false; [done|congruence].
Qed.

(** ** Tokens of a multi-valued attribute *)

Lemma first_token_split (s : string) :
  s = fst (first_token s) +:+ snd (first_token s).
Proof.
  induction s as [|a s IH]; [done|]. simpl.
  destruct (PyStr.isspace a); [done|]. simpl. rewrite append_cons. by f_equal.
Qed.

Lemma first_token_boundary (s : string) : at_boundary (snd (first_token s)).
Proof.
  induction s as [|a s IH]; [done|]. simpl.
  destruct (PyStr.isspace a) eqn:Ha; [done|]. done.
Qed.

(** The tokens of a text that starts with a character that is no whitespace:
    the first token, then the tokens of what follows it. *)
Lemma nonwhitespace_cons (a : ascii) (s : string) :
  PyStr.isspace a = false ->
  Bs4.nonwhitespace (String a s)
  = String a (fst (first_token s)) :: Bs4.nonwhitespace (snd (first_token s)).
Proof.
  revert a. induction s as [|b s IH]; intros a Ha.
  - simpl. by rewrite Ha.
  - change (Bs4.nonwhitespace (String a (String b s))) with
      (if PyStr.isspace a then Bs4.nonwhitespace (String b s)
       else if PyStr.isspace b
            then String a EmptyString :: Bs4.nonwhitespace (String b s)
            else match Bs4.nonwhitespace (String b s) with
                 | w :: ws => String a w :: ws
                 | [] => [String a EmptyString]
                 end).
    rewrite Ha. simpl first_token.
    destruct (PyStr.isspace b) eqn:Hb; [done|].
    rewrite (IH b Hb). done.
Qed.

Lemma nonwhitespace_space (a : ascii) (s : string) :
  PyStr.isspace a = true ->
  Bs4.nonwhitespace (String a s) = Bs4.nonwhitespace s.
Proof. intros Ha. simpl. by rewrite Ha. Qed.

Lemma first_token_length (s : string) :
  (String.length (snd (first_token s)) <= String.length s)%nat.
Proof.
  induction s as [|a s IH]; [done|]. simpl.
  destruct (PyStr.isspace a); simpl; lia.
Qed.

(** Some token contains [p] in lower case exactly when the whole text does. *)
Lemma tokens_contain (p s : string) :
  spaceless p -> p <> EmptyString ->
  existsb (fun w => PyStr.contains p (PyStr.lower w)) (Bs4.nonwhitespace s)
  = PyStr.contains p (PyStr.lower s).
Proof.
  intros Hp Hne.
  remember (String.length s) as n eqn:Hn.
  revert s Hn. induction (lt_wf n) as [n _ IH]. intros s ->.
  destruct s as [|a s]; [by rewrite contains_empty|].
  destruct (PyStr.isspace a) eqn:Ha.
  - rewrite nonwhitespace_space, contains_skip_space by done.
    eapply IH; [|done]. simpl. lia.
  - rewrite nonwhitespace_cons by done. simpl existsb.
    rewrite (IH (String.length (snd (first_token s)))); [| |done].
    + rewrite (first_token_split s) at 3.
      rewrite <- append_cons, contains_boundary;
        [done|done|done|apply first_token_boundary].
    + pose proof (first_token_length s). simpl. lia.
Qed.

(** Joining tokens with a space creates no new occurrence of [p]. *)
Lemma join_contains (p : string) (l : list string) :
  spaceless p -> p <> EmptyString ->
  PyStr.contains p (PyStr.lower (PyStr.join " " l))
  = existsb (fun w => PyStr.contains p (PyStr.lower w)) l.
Proof.
  intros Hp Hne. induction l as [|w l IH]; [by rewrite contains_empty|].
  destruct l as [|w' l].
  - simpl. by rewrite orb_false_r.
  - change (PyStr.join " " (w :: w' :: l))
      with (w +:+ String " " (PyStr.join " " (w' :: l))).
    rewrite contains_boundary; [|done|done|by vm_compute].
    rewrite contains_skip_space; [|done|done|by vm_compute].
    rewrite IH. done.
Qed.

(** ** What [find] finds *)

Lemma find_pointwise {A} (f g : A -> bool) (l : list A) :
  (forall x, f x = g x) -> List.find f l = List.find g l.
Proof. intros E. induction l as [|x l IH]; simpl; [done|]. by rewrite E, IH. Qed.

(** A string filter on an attribute that is not multi-valued tests the
    attribute, as written, for equality. *)
Lemma find_by_attr (nm k v : string) (soup : Bs4.Tag) :
  Bs4.cdata_list_attribute nm k = false -> v <> EmptyString ->
  Bs4.find nm [(k, Bs4.MStr v)] soup
  = first_tag nm (fun t => bool_decide (Bs4.attrs t !! k = Some v)) soup.
Proof.
  intros Hk Hv. apply find_pointwise. intros t.
  unfold Bs4.search_tag. destruct (bool_decide_reflect (Bs4.name t = nm)) as [En|]; [|done].
  simpl. rewrite andb_true_r. unfold Bs4.attr_value. rewrite En, Hk.
  destruct (Bs4.attrs t !! k) as [raw|]; simpl.
  - apply bool_decide_ext. split; congruence.
  - apply truthy_true in Hv. by rewrite Hv.
Qed.

Lemma existsb_pointwise {A} (f g : A -> bool) (l : list A) :
  (forall x, f x = g x) -> existsb f l = existsb g l.
Proof. intros E. induction l as [|x l IH]; simpl; [done|]. by rewrite E, IH. Qed.


Lemma rel_has_icon_contains (w : string) :
  rel_has_icon (Some w) = PyStr.contains "icon" (PyStr.lower w).
Proof. destruct w; done. Qed.

(** The function filter of the code, run by bs4 over the values of rel and
    over their join, holds exactly when rel as written contains [icon] in
    some letter case. *)
Lemma find_icon_link (soup : Bs4.Tag) :
  Bs4.find "link" [("rel", Bs4.MFun rel_has_icon)] soup
  = first_tag "link" rel_contains_icon soup.
Proof.
  apply find_pointwise. intros t. unfold Bs4.search_tag.
  destruct (bool_decide_reflect (Bs4.name t = "link")) as [En|]; [|done].
  simpl. rewrite andb_true_r. unfold Bs4.attr_value, rel_contains_icon.
  rewrite En. destruct (Bs4.attrs t !! "rel") as [raw|]; [|done].
  change (Bs4.cdata_list_attribute "link" "rel") with true. simpl.
  pose proof (rel_has_icon_contains (PyStr.join " " (Bs4.nonwhitespace raw))) as Hj.
  simpl in Hj. rewrite Hj. clear Hj.
  rewrite join_contains by (apply spaceless_icon || done).
  rewrite (existsb_pointwise _ (fun w => PyStr.contains "icon" (PyStr.lower w)))
    by (intros w; apply (rel_has_icon_contains w)).
  rewrite orb_diag. apply tokens_contain; [apply spaceless_icon|done].
Qed.

Lemma has_char_append (c : ascii) (x y : string) :
  PyStr.has_char c (x +:+ String c y) = true.
Proof.
  induction x as [|a x IH].
  - rewrite append_nil_l. simpl. by rewrite bool_decide_true.
  - rewrite append_cons. simpl. rewrite IH. apply orb_true_r.
Qed.

(** A value without a space equals the join of the tokens only when it is
    the one token. *)
Lemma join_eq_token (v : string) (l : list string) :
  v <> EmptyString -> PyStr.has_char " "%char v = false ->
  PyStr.join " " l = v -> l = [v].
Proof.
  intros Hne Hsp Hj. destruct l as [|w [|w' l]].
  - simpl in Hj. congruence.
  - simpl in Hj. by subst.
  - change (PyStr.join " " (w :: w' :: l))
      with (w +:+ String " " (PyStr.join " " (w' :: l))) in Hj.
    subst v. by rewrite has_char_append in Hsp.
Qed.

(** The string filter of the code on rel holds exactly when one of the link
    types rel names is that string. *)
Lemma find_rel_link (v : string) (soup : Bs4.Tag) :
  v <> EmptyString -> PyStr.has_char " "%char v = false ->
  Bs4.find "link" [("rel", Bs4.MStr v)] soup = first_tag "link" (rel_is v) soup.
Proof.
  intros Hne Hsp. apply find_pointwise. intros t. unfold Bs4.search_tag.
  destruct (bool_decide_reflect (Bs4.name t = "link")) as [En|]; [|done].
  simpl. rewrite andb_true_r. unfold Bs4.attr_value, rel_is.
  rewrite En. destruct (Bs4.attrs t !! "rel") as [raw|].
  - change (Bs4.cdata_list_attribute "link" "rel") with true. simpl.
    apply eq_true_iff_eq. rewrite orb_true_iff, existsb_exists.
    rewrite !bool_decide_eq_true. split.
    + intros [(w & Hin & Hw)|Hj].
      * apply bool_decide_eq_true in Hw. subst. by apply list_elem_of_In.
      * apply join_eq_token in Hj; [|done..]. rewrite Hj. set_solver.
    + intros Hin. left. exists v. split; [by apply list_elem_of_In|].
      by apply bool_decide_eq_true.
  - simpl. apply truthy_true in Hne. by rewrite Hne.
Qed.

(** The attributes bs4 splits into lists, on whatever tag. *)
Lemma cdata_list_attribute_names (nm k : string) :
  Bs4.cdata_list_attribute nm k = true ->
  k ∈ ["class"; "accesskey"; "dropzone"; "rel"; "rev"; "headers";
       "accept-charset"; "archive"; "sizes"; "sandbox"; "for"].
Proof.
  unfold Bs4.cdata_list_attribute.
  rewrite !orb_true_iff, !andb_true_iff, !bool_decide_eq_true.
  rewrite !list_elem_of_In. simpl. intuition (subst; auto 20).
Qed.

(** [content] and [href] are plain strings on every tag, so that [get]
    returns what bs4 returns for them. *)
Lemma get_plain (t : Bs4.Tag) (k : string) :
  k = "content" \/ k = "href" ->
  Bs4.attr_value t k = Bs4.AStr <$> Bs4.get t k.
Proof.
  intros Hk. unfold Bs4.attr_value, Bs4.get.
  destruct (Bs4.attrs t !! k) as [raw|]; [|done]. simpl.
  destruct (Bs4.cdata_list_attribute (Bs4.name t) k) eqn:E; [|done].
  apply cdata_list_attribute_names in E.
  apply list_elem_of_In in E. simpl in E.
  destruct Hk as [-> | ->]; intuition discriminate.
Qed.

(** The guard [tag and tag.get(k)] in the words of the specification. *)
Lemma found_attr_spec (t : option Bs4.Tag) (k : string) :
  found_attr t k
  = if PyStr.truthy (attr_or_empty t k) then Some (attr_or_empty t k) else None.
Proof.
  unfold found_attr, attr_or_empty, Bs4.get. destruct t as [t|]; [|done].
  destruct (Bs4.attrs t !! k) as [v|]; done.
Qed.

Lemma found_meta (soup : Bs4.Tag) (k v : string) :
  Bs4.cdata_list_attribute "meta" k = false -> v <> EmptyString ->
  found_attr (Bs4.find "meta" [(k, Bs4.MStr v)] soup) "content"
  = if PyStr.truthy (meta_content soup k v) then Some (meta_content soup k v)
    else None.
Proof. intros Hk Hv. rewrite find_by_attr by done. apply found_attr_spec. Qed.


(** ** URLs that [urlparse] accepts *)

Lemma within_refl (s : string) : chars_within s s.
Proof. by intros c. Qed.

Lemma within_trans (s t u : string) :
  chars_within s t -> chars_within t u -> chars_within s u.
Proof. intros H1 H2 c Hc. by apply H2, H1. Qed.

Lemma within_tail (a : ascii) (s : string) : chars_within s (String a s).
Proof. intros c Hc. simpl. rewrite Hc. apply orb_true_r. Qed.

Lemma within_cons (a : ascii) (s t : string) :
  chars_within s t -> chars_within (String a s) (String a t).
Proof.
  intros Hst c. simpl. rewrite !orb_true_iff. intros [?|?]; [by left|].
  right. by apply Hst.
Qed.

Lemma lstrip_by_within (p : ascii -> bool) (s : string) :
  chars_within (PyStr.lstrip_by p s) s.
Proof.
  induction s as [|a s IH]; [apply within_refl|]. simpl.
  destruct (p a); [|apply within_refl].
  eapply within_trans; [exact IH|apply within_tail].
Qed.

Lemma remove_char_within (d : ascii) (s : string) :
  chars_within (PyStr.remove_char d s) s.
Proof.
  induction s as [|a s IH]; [apply within_refl|]. simpl.
  destruct (bool_decide (a = d)).
  - eapply within_trans; [exact IH|apply within_tail].
  - by apply within_cons.
Qed.

Lemma remove_unsafe_within (s : string) : chars_within (Urllib.remove_unsafe s) s.
Proof.
  unfold Urllib.remove_unsafe.
  eapply within_trans; [apply remove_char_within|].
  eapply within_trans; apply remove_char_within.
Qed.

Lemma partition_within (d : ascii) (s l r : string) :
  PyStr.partition d s = Some (l, r) -> chars_within r s.
Proof.
  revert l. induction s as [|a s IH]; intros l; [done|]. simpl.
  destruct (bool_decide (a = d)).
  - intros [= _ <-]. apply within_tail.
  - destruct (PyStr.partition d s) as [[l' r']|]; [|done].
    intros [= _ <-]. eapply within_trans; [by eapply IH|apply within_tail].
Qed.

Lemma split_scheme_within (url scheme : string) :
  chars_within (snd (Urllib.split_scheme url scheme)) url.
Proof.
  unfold Urllib.split_scheme.
  destruct (PyStr.partition ":" url) as [[pre rest]|] eqn:Hp; [|apply within_refl].
  destruct pre as [|a pre]; [apply within_refl|].
  destruct (PyStr.is_ascii_alpha a && PyStr.all_chars Urllib.scheme_char _);
    [|apply within_refl].
  simpl. by eapply partition_within.
Qed.

Lemma span_until_within (stops s : string) :
  chars_within (fst (PyStr.span_until stops s)) s.
Proof.
  induction s as [|a s IH]; [apply within_refl|]. simpl.
  destruct (PyStr.has_char a stops); [by intros c|].
  destruct (PyStr.span_until stops s) as [l r]. simpl in *.
  by apply within_cons.
Qed.

(** A URL in which neither bracket occurs passes the bracket checks, whatever
    the library thinks of bracketed hosts. *)
Lemma urlparse_accepts `{Externals} (url scheme : string) :
  PyStr.has_char "["%char url = false -> PyStr.has_char "]"%char url = false ->
  exists parsed, Urllib.urlparse url scheme = Value parsed.
Proof.
  intros Hl Hr. unfold Urllib.urlparse, Urllib.urlsplit.
  set (url1 := Urllib.remove_unsafe (PyStr.lstrip_by Urllib.c0_control_or_space url)).
  assert (chars_within url1 url) as H1.
  { eapply within_trans; [apply remove_unsafe_within|apply lstrip_by_within]. }
  set (scheme1 := Urllib.remove_unsafe _).
  pose proof (split_scheme_within url1 scheme1) as H2.
  destruct (Urllib.split_scheme url1 scheme1) as [scheme2 url2]. simpl in H2.
  assert (forall c, PyStr.has_char c url = false -> PyStr.has_char c url2 = false)
    as Hnone.
  { intros c Hc. destruct (PyStr.has_char c url2) eqn:E; [|done].
    apply H2, H1 in E. congruence. }
  assert (exists nu, Urllib.split_netloc url2 = Value nu) as [nu Hnu].
  { unfold Urllib.split_netloc.
    destruct url2 as [|a [|b rest]].
    { eexists. reflexivity. }
    { destruct a as [[] [] [] [] [] [] [] []]; eexists; reflexivity. }
    destruct (Ascii.ascii_dec a "/") as [->|Ha];
      [destruct (Ascii.ascii_dec b "/") as [->|Hb]|].
    - pose proof (span_until_within "/?#" rest) as H3.
      destruct (PyStr.span_until "/?#" rest) as [netloc url3]. simpl in H3.
      assert (forall c, PyStr.has_char c url = false ->
                        PyStr.has_char c netloc = false) as Hnet.
      { intros c Hc. destruct (PyStr.has_char c netloc) eqn:E; [|done].
        apply H3 in E. apply (within_tail "/"), (within_tail "/") in E.
        rewrite (Hnone c Hc) in E. done. }
      rewrite (Hnet _ Hl), (Hnet _ Hr). simpl. by eexists.
    - destruct b as [[] [] [] [] [] [] [] []];
        try (eexists; reflexivity); done.
    - destruct a as [[] [] [] [] [] [] [] []];
        try (eexists; reflexivity); done. }
  rewrite Hnu. simpl.
  destruct (Urllib.split_once "#" (snd nu)) as [url4 fragment].
  destruct (Urllib.split_once "?" url4) as [url5 query]. simpl.
  destruct (bool_decide _ && _); [destruct (Urllib._splitparams url5)|]; by eexists.
Qed.

(** ** The extractors *)



(** C4, at the failing input.  For the page [<title> </title>] fetched from
    [https://x.com/a], the title text is one blank; the first non-empty
    value of og:title content, twitter:title content, stripped title text
    and URL is the URL; [_extract_title] returns the empty string. *)
Theorem C4_blank_title_is_not_replaced_by_url :
  title_text page_blank_title = " "
  /\ first_nonempty
       [meta_content page_blank_title "property" "og:title";
        meta_content page_blank_title "name" "twitter:title";
        PyStr.strip (title_text page_blank_title);
        "https://x.com/a"] EmptyString
     = "https://x.com/a"
  /\ _extract_title page_blank_title "https://x.com/a" = EmptyString.
Proof. repeat split; vm_compute; reflexivity. Qed.

(** C6.  For every page, the extracted author is the first non-empty value
    of: the content of the article:author meta tag, the content of the author
    meta tag, the content of the twitter:creator meta tag with its leading
    [@] characters stripped; it is the empty string when none is non-empty.
    In particular a page whose only author source is a twitter:creator of
    [@alice] has the author [alice]. *)
Theorem C6_author_is_first_nonempty_source :
  (forall soup,
     _extract_author soup
     = first_nonempty
         [meta_content soup "property" "article:author";
          meta_content soup "name" "author";
          PyStr.lstrip "@" (meta_content soup "name" "twitter:creator")]
         EmptyString)
  /\ (forall soup,
        meta_content soup "property" "article:author" = EmptyString ->
        meta_content soup "name" "author" = EmptyString ->
        meta_content soup "name" "twitter:creator" = "@alice" ->
        _extract_author soup = "alice").
Proof.
  assert (forall soup,
     _extract_author soup
     = first_nonempty
         [meta_content soup "property" "article:author";
          meta_content soup "name" "author";
          PyStr.lstrip "@" (meta_content soup "name" "twitter:creator")]
         EmptyString) as Hchain.
  { intros soup. unfold _extract_author, first_nonempty.
    rewrite !found_meta by done. simpl.
    destruct (PyStr.truthy (meta_content soup "property" "article:author")); [done|].
    destruct (PyStr.truthy (meta_content soup "name" "author")); [done|].
    destruct (meta_content soup "name" "twitter:creator") as [|c s]; [done|].
    simpl PyStr.truthy at 1. cbv iota.
    destruct (PyStr.truthy (PyStr.lstrip "@" (String c s))) eqn:E; [done|].
    by apply truthy_false in E. }
  split; [exact Hchain|].
  intros soup H1 H2 H3. rewrite Hchain, H1, H2, H3. reflexivity.
Qed.

Lemma C6_author_witness : _extract_author page_twitter_creator = "alice".
Proof.
  apply (proj2 C6_author_is_first_nonempty_source page_twitter_creator);
    vm_compute; reflexivity.
Defined.




(** ** The page fetch *)

Lemma raise_for_status_error (r : Response) :
  400 <= status_code r < 600 -> exists e, Effects.raise_for_status r = Raised e.
Proof.
  intros Hs. unfold Effects.raise_for_status.
  destruct (status_code r <? 500) eqn:E.
  - exists "Client Error". replace (400 <=? status_code r) with true by lia. done.
  - exists "Server Error". rewrite andb_false_r.
    replace (500 <=? status_code r) with true by lia.
    replace (status_code r <? 600) with true by lia. done.
Qed.

Lemma raise_for_status_ok (r : Response) :
  ~ (400 <= status_code r < 600) -> Effects.raise_for_status r = Value tt.
Proof.
  intros Hs. unfold Effects.raise_for_status.
  destruct (400 <=? status_code r) eqn:E1; destruct (status_code r <? 500) eqn:E2;
    destruct (500 <=? status_code r) eqn:E3; destruct (status_code r <? 600) eqn:E4;
    simpl; try done; lia.
Qed.

Lemma get_soup_failed `{Externals} (r : Exc Response) :
  get_failed r -> exists e, get_soup r = Raised e.
Proof.
  destruct r as [response|e]; simpl; intros Hf; [|by exists e].
  destruct (raise_for_status_error response Hf) as [e He].
  exists e. unfold get_soup. simpl. by rewrite He.
Qed.

Lemma get_soup_succeeded `{Externals} (r : Exc Response) (response : Response) :
  get_succeeded r response -> get_soup r = html_parser (content response).
Proof.
  intros [-> Hs]. unfold get_soup. simpl. by rewrite raise_for_status_ok.
Qed.

(** [fetch_page_metadata] sends one request and logs at most one warning:
    the dictionary is what the [try] block left, the warning is there when
    the block raised. *)
Lemma fetch_page_metadata_eq `{Externals} (url : string) (timeout : Z) (w : World) :
  fetch_page_metadata url timeout w
  = let request := mkRequest url HEADERS timeout in
    let tried := try_fetch url (network w (sent w) request) empty_metadata in
    (fst tried,
     match snd tried with
     | Some e => Effects.warning
                   ("Error fetching metadata from " +:+ url +:+ ": " +:+ e)
                   (Effects.sending request w)
     | None => Effects.sending request w
     end).
Proof.
  unfold fetch_page_metadata, bind, ret, Effects.requests_get,
    Effects.logger_warning. cbv zeta.
  fold empty_metadata.
  by destruct (try_fetch url _ empty_metadata) as [metadata [e|]].
Qed.

Lemma try_fetch_failed `{Externals} (url : string) (r : Exc Response)
    (metadata : gmap string string) :
  get_failed r -> exists e, try_fetch url r metadata = (metadata, Some e).
Proof.
  intros Hf. destruct (get_soup_failed r Hf) as [e He].
  exists e. unfold try_fetch. by rewrite He.
Qed.





(** ** The favicon download *)

Lemma download_favicon_eq `{Externals} (url : string) (timeout : Z) (w : World) :
  download_favicon url timeout w
  = let request := mkRequest url HEADERS timeout in
    match favicon_file_of url (network w (sent w) request) with
    | Value f => (Some f, Effects.sending request w)
    | Raised e =>
        (None,
         Effects.warning
           ("Error downloading favicon from " +:+ url +:+ ": " +:+ e)
           (Effects.sending request w))
    end.
Proof.
  unfold download_favicon, bind, ret, Effects.requests_get,
    Effects.logger_warning. cbv zeta.
  by destruct (favicon_file_of url _).
Qed.

Lemma favicon_file_failed `{Externals} (url : string) (r : Exc Response) :
  get_failed r -> exists e, favicon_file_of url r = Raised e.
Proof.
  destruct r as [response|e]; simpl; intros Hf; [|by exists e].
  destruct (raise_for_status_error response Hf) as [e He].
  exists e. unfold favicon_file_of. simpl. by rewrite He.
Qed.

Lemma favicon_file_succeeded `{Externals} (url : string) (r : Exc Response)
    (response : Response) (parsed : Urllib.ParseResult) :
  get_succeeded r response ->
  Urllib.urlparse url EmptyString = Value parsed ->
  favicon_file_of url r
  = Value (mkContentFile (content response)
             (favicon_filename (Urllib.path parsed))).
Proof.
  intros [-> Hs] Hp. unfold favicon_file_of. simpl.
  rewrite raise_for_status_ok by done. simpl. rewrite Hp. simpl.
  unfold favicon_filename, final_segment.
  by destruct (PyStr.has_char "." _).
Qed.

Lemma favicon_file_inv `{Externals} (url : string) (r : Exc Response)
    (f : ContentFile) :
  favicon_file_of url r = Value f ->
  exists response parsed,
    get_succeeded r response
    /\ Urllib.urlparse url EmptyString = Value parsed
    /\ f = mkContentFile (content response)
             (favicon_filename (Urllib.path parsed)).
Proof.
  intros Hf. destruct r as [response|e]; [|done].
  assert (~ (400 <= status_code response < 600)) as Hs.
  { intros Hs. destruct (favicon_file_failed url (Value response) Hs) as [e He].
    congruence. }
  destruct (Urllib.urlparse url EmptyString) as [parsed|e] eqn:Hp.
  - exists response, parsed. split; [done|]. split; [done|].
    rewrite (favicon_file_succeeded url _ response parsed) in Hf by done.
    congruence.
  - unfold favicon_file_of in Hf. simpl in Hf.
    rewrite raise_for_status_ok in Hf by done. simpl in Hf.
    rewrite Hp in Hf. done.
Qed.

(** C7.  When the GET of the favicon URL succeeds (and [urlparse] accepts the
    URL, as it does each URL that was fetched), [download_favicon] returns
    the bytes of the response paired with a file name: the final segment of
    the path of the URL, or [favicon.ico] when that segment holds no dot.
    Every file it returns comes about in this way, and a successful GET of a
    URL without a square bracket always returns a file. *)
Theorem C7_download_names_file_after_final_segment `{Externals}
    (url : string) (timeout : Z) (w : World) :
  let answer := network w (sent w) (mkRequest url HEADERS timeout) in
  (forall response parsed,
     get_succeeded answer response ->
     Urllib.urlparse url EmptyString = Value parsed ->
     fst (download_favicon url timeout w)
     = Some (mkContentFile (content response)
               (if PyStr.has_char "."%char (final_segment (Urllib.path parsed))
                then final_segment (Urllib.path parsed)
                else "favicon.ico")))
  /\ (forall f,
        fst (download_favicon url timeout w) = Some f ->
        exists response parsed,
          get_succeeded answer response
          /\ Urllib.urlparse url EmptyString = Value parsed
          /\ cf_content f = content response
          /\ cf_name f = favicon_filename (Urllib.path parsed))
  /\ (forall response,
        get_succeeded answer response ->
        PyStr.has_char "["%char url = false ->
        PyStr.has_char "]"%char url = false ->
        exists filename,
          fst (download_favicon url timeout w)
          = Some (mkContentFile (content response) filename)).
Proof.
  intros answer. rewrite download_favicon_eq. cbv zeta. fold answer.
  split; [|split].
  - intros response parsed Hs Hp.
    by rewrite (favicon_file_succeeded url answer response parsed).
  - intros f Hf. destruct (favicon_file_of url answer) as [f'|e] eqn:Hff; [|done].
    simpl in Hf. injection Hf as ->.
    destruct (favicon_file_inv url answer f Hff) as (response & parsed & Hs & Hp & ->).
    by exists response, parsed.
  - intros response Hs Hl Hr.
    destruct (urlparse_accepts url EmptyString Hl Hr) as [parsed Hp].
    rewrite (favicon_file_succeeded url answer response parsed) by done.
    by eexists.
Qed.

Lemma C7_download_witness :
  fst (@download_favicon sample_externals "https://x.com/static/icons/f.png;v=2?s=1"
         10 (fresh_world network_up))
  = Some (mkContentFile sample_content "f.png")
  /\ fst (@download_favicon sample_externals "https://x.com/static/" 10
            (fresh_world network_up))
     = Some (mkContentFile sample_content "favicon.ico").
Proof.
  split.
  - apply (proj1 (@C7_download_names_file_after_final_segment sample_externals
                    "https://x.com/static/icons/f.png;v=2?s=1" 10
                    (fresh_world network_up))
             (mkResponse 200 sample_content)
             (Urllib.mkParse "https" "x.com" "/static/icons/f.png" "v=2" "s=1" "")).
    + split; [reflexivity | vm_compute; intros [? ?]; congruence].
    + vm_compute; reflexivity.
  - apply (proj1 (@C7_download_names_file_after_final_segment sample_externals
                    "https://x.com/static/" 10 (fresh_world network_up))
             (mkResponse 200 sample_content)
             (Urllib.mkParse "https" "x.com" "/static/" "" "" "")).
    + split; [reflexivity | vm_compute; intros [? ?]; congruence].
    + vm_compute; reflexivity.
Defined.

(** ** The merge and the save *)

Lemma fetch_page_metadata_world `{Externals} (url : string) (timeout : Z) (w : World) :
  let w' := snd (fetch_page_metadata url timeout w) in
  network w' = network w
  /\ sent w' = sent w ++ [mkRequest url HEADERS timeout]
  /\ files w' = files w
  /\ saved w' = saved w
  /\ m2m_saved w' = m2m_saved w.
Proof.
  rewrite fetch_page_metadata_eq. cbv zeta. simpl.
  by destruct (snd (try_fetch url _ empty_metadata)).
Qed.

Lemma found_key_spec (metadata : gmap string string) (k : string) :
  found_key metadata k
  = if PyStr.truthy (default EmptyString (metadata !! k))
    then Some (default EmptyString (metadata !! k)) else None.
Proof. unfold found_key. by destruct (metadata !! k). Qed.

(** The record after lines 104 to 108: title and author filled in. *)
Lemma merge_eq `{Externals} (record : Quoteback) (metadata : gmap string string)
    (w : World) :
  merge record metadata w
  = let filled :=
      let r1 := if PyStr.truthy (page_title record) then record
                else set_page_title record (default EmptyString (metadata !! "title")) in
      if PyStr.truthy (author r1) then r1
      else if PyStr.truthy (default EmptyString (metadata !! "author"))
           then set_author r1 (default EmptyString (metadata !! "author"))
           else r1 in
    let favicon_url := default EmptyString (metadata !! "favicon_url") in
    if PyStr.truthy favicon_url && negb (PyStr.truthy (favicon record)) then
      match download_favicon favicon_url 10 w with
      | (Some f, w') => Effects.FieldFile_save filled (cf_name f) f w'
      | (None, w') => ((filled, None), w')
      end
    else ((filled, None), w).
Proof.
  unfold merge, bind, ret. rewrite !found_key_spec. cbv zeta.
  destruct (PyStr.truthy (page_title record)) eqn:Et; simpl;
    destruct (PyStr.truthy (author record)) eqn:Ea; simpl;
    destruct (PyStr.truthy (default EmptyString (metadata !! "author"))); simpl;
    destruct (PyStr.truthy (default EmptyString (metadata !! "favicon_url"))); simpl;
    destruct (PyStr.truthy (favicon record)); simpl; try reflexivity;
    destruct (download_favicon _ 10 w) as [[f|] w']; reflexivity.
Qed.

Lemma download_favicon_world `{Externals} (url : string) (timeout : Z) (w : World) :
  let w' := snd (download_favicon url timeout w) in
  network w' = network w
  /\ sent w' = sent w ++ [mkRequest url HEADERS timeout]
  /\ files w' = files w
  /\ saved w' = saved w
  /\ m2m_saved w' = m2m_saved w.
Proof.
  rewrite download_favicon_eq. cbv zeta.
  by destruct (favicon_file_of url _).
Qed.

Lemma same_but_fetched_refl (r : Quoteback) : same_but_fetched r r.
Proof. by repeat split. Qed.

Lemma same_but_fetched_trans (r1 r2 r3 : Quoteback) :
  same_but_fetched r1 r2 -> same_but_fetched r2 r3 -> same_but_fetched r1 r3.
Proof. unfold same_but_fetched. intros H1 H2. by intuition congruence. Qed.

Lemma app_cons_neq {A} (l : list A) (x : A) (l' : list A) : l ++ x :: l' <> l.
Proof.
  intros E. apply (f_equal length) in E. rewrite length_app in E. simpl in E. lia.
Qed.

(** The record after lines 104 to 108, before the favicon is looked at. *)
Lemma merge_filled (record : Quoteback) (metadata : gmap string string) :
  let fetched k := default EmptyString (metadata !! k) in
  let filled :=
    let r1 := if PyStr.truthy (page_title record) then record
              else set_page_title record (fetched "title") in
    if PyStr.truthy (author r1) then r1
    else if PyStr.truthy (fetched "author") then set_author r1 (fetched "author")
         else r1 in
  same_but_fetched record filled
  /\ page_title filled
     = (if PyStr.truthy (page_title record) then page_title record
        else fetched "title")
  /\ author filled
     = (if PyStr.truthy (author record) then author record
        else if PyStr.truthy (fetched "author") then fetched "author"
        else author record)
  /\ favicon filled = favicon record.
Proof.
  cbv zeta.
  destruct (PyStr.truthy (page_title record));
    destruct (PyStr.truthy (author record)) eqn:Ea; simpl; rewrite ?Ea;
    destruct (PyStr.truthy (default EmptyString (metadata !! "author")));
    simpl; by repeat split.
Qed.

(** What the merge does to the record and to the world, field by field. *)
Lemma merge_spec `{Externals} (record : Quoteback) (metadata : gmap string string)
    (w : World) :
  let fetched k := default EmptyString (metadata !! k) in
  let record' := fst (fst (merge record metadata w)) in
  let raised := snd (fst (merge record metadata w)) in
  let w' := snd (merge record metadata w) in
  same_but_fetched record record'
  /\ page_title record'
     = (if PyStr.truthy (page_title record) then page_title record
        else fetched "title")
  /\ author record'
     = (if PyStr.truthy (author record) then author record
        else if PyStr.truthy (fetched "author") then fetched "author"
        else author record)
  /\ network w' = network w /\ saved w' = saved w /\ m2m_saved w' = m2m_saved w
  /\ (if PyStr.truthy (fetched "favicon_url") && negb (PyStr.truthy (favicon record))
      then sent w' = sent w ++ [mkRequest (fetched "favicon_url") HEADERS 10]
           /\ match fst (download_favicon (fetched "favicon_url") 10 w) with
              | Some f =>
                  match storage_save (files w) (cf_name f) with
                  | Value stored =>
                      favicon record' = stored
                      /\ files w' = files w ++ [(stored, cf_content f)]
                      /\ raised = None
                  | Raised e =>
                      favicon record' = favicon record /\ files w' = files w
                      /\ raised = Some e
                  end
              | None =>
                  favicon record' = favicon record /\ files w' = files w
                  /\ raised = None
              end
      else favicon record' = favicon record /\ files w' = files w
           /\ sent w' = sent w /\ raised = None).
Proof.
  cbv zeta. rewrite merge_eq. cbv zeta.
  pose proof (merge_filled record metadata) as Hfilled. cbv zeta in Hfilled.
  match type of Hfilled with
  | same_but_fetched _ ?r /\ _ => set (filled := r) in *; clearbody filled
  end.
  destruct Hfilled as (Hsame & Ht & Ha & Hfav).
  unfold same_but_fetched in Hsame |- *.
  destruct Hsame as (? & ? & ? & ? & ? & ? & ? & ? & ? & ? & ? & ? & ?).
  destruct (PyStr.truthy (default EmptyString (metadata !! "favicon_url"))
            && negb (PyStr.truthy (favicon record))) eqn:Ef.
  - pose proof (download_favicon_world
                  (default EmptyString (metadata !! "favicon_url")) 10 w) as Hw.
    cbv zeta in Hw.
    destruct (download_favicon _ 10 w) as [[f|] w1]; simpl in Hw |- *;
      destruct Hw as (Hn & Hs & Hf & Hsv & Hm).
    + unfold Effects.FieldFile_save. rewrite Hf.
      destruct (storage_save (files w) (cf_name f)) as [stored|e]; simpl;
        rewrite ?Hf; by repeat split.
    + by repeat split.
  - simpl. by repeat split.
Qed.

Lemma fetch_and_merge_eq `{Externals} (self : QuotebackAdminForm)
    (record : Quoteback) (w : World) :
  fetch_and_merge self record w
  = if fetches self record
    then merge record (fst (fetch_page_metadata (source_url record) 10 w))
           (snd (fetch_page_metadata (source_url record) 10 w))
    else ((record, None), w).
Proof.
  unfold fetch_and_merge, fetches, bind, ret.
  destruct (value_truthy _ && PyStr.truthy _); simpl; [|done].
  destruct (should_fetch self record); [|done].
  by destruct (fetch_page_metadata (source_url record) 10 w).
Qed.

Lemma save_eq `{Externals} (self : QuotebackAdminForm) (commit : bool) (w : World) :
  save self commit w
  = let merged := fetch_and_merge self (instance self) w in
    (fst merged,
     match snd (fst merged) with
     | Some _ => snd merged
     | None =>
         if commit
         then Effects.saving_m2m (Effects.saving (fst (fst merged)) (snd merged))
         else snd merged
     end).
Proof.
  unfold save, bind, ret, Effects.Model_save, Effects.save_m2m. cbv zeta.
  destruct (fetch_and_merge self (instance self) w) as [[r [e|]] w1]; [done|].
  by destruct commit.
Qed.

(** The outcome of a save is the outcome of its fetch-and-merge step. *)
Lemma save_outcome `{Externals} (self : QuotebackAdminForm) (commit : bool) (w : World) :
  fst (save self commit w) = fst (fetch_and_merge self (instance self) w).
Proof. by rewrite save_eq. Qed.

(** What a save writes is all it does to the world after the merge. *)
Lemma save_world `{Externals} (self : QuotebackAdminForm) (commit : bool) (w : World) :
  let w1 := snd (fetch_and_merge self (instance self) w) in
  let w' := snd (save self commit w) in
  network w' = network w1 /\ sent w' = sent w1 /\ warnings w' = warnings w1
  /\ files w' = files w1.
Proof.
  cbv zeta. rewrite save_eq. cbv zeta. cbn [snd].
  destruct (snd (fst (fetch_and_merge self (instance self) w))); [done|].
  by destruct commit.
Qed.

Lemma pk_truthy_false (k : option Z) :
  pk_truthy k = false <-> k = None \/ k = Some 0.
Proof.
  destruct k as [z|]; simpl; [|by intuition].
  rewrite negb_false_iff, Z.eqb_eq. split; [intros ->; by right|].
  intros [?|?]; congruence.
Qed.

Lemma has_changed_true (self : QuotebackAdminForm) :
  has_changed self = true <-> changed_data self <> [].
Proof. unfold has_changed. destruct (changed_data self); by intuition. Qed.

Lemma should_fetch_true (self : QuotebackAdminForm) (record : Quoteback) :
  should_fetch self record = true
  <-> (pk record = None \/ pk record = Some 0)
      \/ page_title record = EmptyString
      \/ (changed_data self <> [] /\ "source_url" ∈ changed_data self).
Proof.
  unfold should_fetch.
  rewrite !orb_true_iff, andb_true_iff, !negb_true_iff, pk_truthy_false,
    truthy_false, has_changed_true, bool_decide_eq_true.
  tauto.
Qed.

Lemma fetches_true (self : QuotebackAdminForm) (record : Quoteback) :
  fetches self record = true
  <-> value_truthy (cleaned_data self !! "fetch_metadata") = true
      /\ source_url record <> EmptyString
      /\ ((pk record = None \/ pk record = Some 0)
          \/ page_title record = EmptyString
          \/ (changed_data self <> [] /\ "source_url" ∈ changed_data self)).
Proof.
  unfold fetches. rewrite !andb_true_iff, truthy_true, should_fetch_true. tauto.
Qed.

(** The requests of a save: none, or the page fetch first and then at most
    the favicon download. *)
Lemma save_sent `{Externals} (self : QuotebackAdminForm) (commit : bool) (w : World) :
  let w' := snd (save self commit w) in
  if fetches self (instance self)
  then exists rest,
         sent w' = sent w ++ mkRequest (source_url (instance self)) HEADERS 10 :: rest
  else sent w' = sent w.
Proof.
  cbv zeta. pose proof (save_world self commit w) as Hc. cbv zeta in Hc.
  destruct Hc as (_ & -> & _). rewrite fetch_and_merge_eq.
  destruct (fetches self (instance self)); [|done].
  pose proof (fetch_page_metadata_world (source_url (instance self)) 10 w) as Hw.
  cbv zeta in Hw. destruct Hw as (_ & Hs & _).
  pose proof (merge_spec (instance self)
                (fst (fetch_page_metadata (source_url (instance self)) 10 w))
                (snd (fetch_page_metadata (source_url (instance self)) 10 w))) as Hm.
  cbv zeta in Hm. destruct Hm as (_ & _ & _ & _ & _ & _ & Hm).
  destruct (PyStr.truthy _ && negb _).
  - destruct Hm as [-> _]. rewrite Hs, <- app_assoc. by eexists.
  - destruct Hm as (_ & _ & -> & _). rewrite Hs. by eexists.
Qed.

(** C2.  During [save] the metadata fetch is attempted (a request is sent,
    and the first one sent is the GET of the source URL of the record) if and
    only if the fetch-enabled flag is set, and the source URL is not empty,
    and one of these holds: the record has no primary key ([None], or the
    false key 0); its page title is blank; the form has changed and
    [source_url] is among the changed fields.  The conjunction binds tighter
    than the disjunctions. *)
Theorem C2_fetch_attempted_iff `{Externals}
    (self : QuotebackAdminForm) (commit : bool) (w : World) :
  let record := instance self in
  let w' := snd (save self commit w) in
  let decision :=
    value_truthy (cleaned_data self !! "fetch_metadata") = true
    /\ source_url record <> EmptyString
    /\ ((pk record = None \/ pk record = Some 0)
        \/ page_title record = EmptyString
        \/ (changed_data self <> [] /\ "source_url" ∈ changed_data self)) in
  (sent w' <> sent w <-> decision)
  /\ (decision ->
      exists rest,
        sent w' = sent w ++ mkRequest (source_url record) HEADERS 10 :: rest).
Proof.
  cbv zeta. pose proof (save_sent self commit w) as Hs. cbv zeta in Hs.
  rewrite <- fetches_true.
  destruct (fetches self (instance self)).
  - destruct Hs as [rest ->]. split; [|by eexists].
    split; [done|]. intros _. apply app_cons_neq.
  - rewrite Hs. split; [|done]. split; [done|]. discriminate.
Qed.

Lemma C2_fetch_witness :
  exists rest,
    sent (snd (@save sample_externals new_form true (fresh_world sample_network)))
    = mkRequest "https://x.com/a" HEADERS 10 :: rest.
Proof.
  apply (proj2 (@C2_fetch_attempted_iff sample_externals new_form true
                  (fresh_world sample_network))).
  split; [reflexivity|]. split; [discriminate|]. left. by left.
Defined.

(** The record and the world after the fetch-and-merge step of a save. *)
Lemma fetch_and_merge_spec `{Externals} (self : QuotebackAdminForm)
    (record : Quoteback) (w : World) :
  let record' := fst (fst (fetch_and_merge self record w)) in
  let raised := snd (fst (fetch_and_merge self record w)) in
  let w' := snd (fetch_and_merge self record w) in
  same_but_fetched record record'
  /\ (PyStr.truthy (page_title record) = true -> page_title record' = page_title record)
  /\ (PyStr.truthy (author record) = true -> author record' = author record)
  /\ (PyStr.truthy (favicon record) = true ->
      favicon record' = favicon record /\ files w' = files w /\ raised = None)
  /\ saved w' = saved w /\ m2m_saved w' = m2m_saved w.
Proof.
  cbv zeta. rewrite fetch_and_merge_eq.
  destruct (fetches self record).
  - pose proof (fetch_page_metadata_world (source_url record) 10 w) as Hw.
    cbv zeta in Hw. destruct Hw as (_ & _ & Hf & Hs & Hm).
    pose proof (merge_spec record
                  (fst (fetch_page_metadata (source_url record) 10 w))
                  (snd (fetch_page_metadata (source_url record) 10 w))) as Hmerge.
    cbv zeta in Hmerge.
    destruct Hmerge as (Hsame & Ht & Ha & _ & Hsv & Hmm & Hfav).
    split; [done|]. split; [by intros E; rewrite Ht, E|].
    split; [by intros E; rewrite Ha, E|].
    split; [|by rewrite Hsv, Hmm].
    intros E. rewrite E, andb_false_r in Hfav.
    destruct Hfav as (-> & -> & _ & ->). by rewrite Hf.
  - simpl. split; [apply same_but_fetched_refl|]. by repeat split.
Qed.

(** C3.  The merge is fill-if-blank.  After [merge]: the page title is the
    old one unless that was blank, in which case it is the fetched title;
    the author is the old one unless that was blank and the fetched author is
    not empty, in which case it is the fetched author; the favicon download
    is attempted if and only if a favicon URL was fetched and the record has
    no favicon; a record that has a favicon keeps it and no file is stored.
    After [save], whatever the form, the commit flag and the world: a page
    title that was not blank is kept, so is an author, so is a favicon; a
    record whose page title is [Existing] still has that title.  The record
    after is the one [save] returns, and also the one an exception of line
    114 leaves behind. *)
Theorem C3_merge_fills_only_blanks `{Externals} :
  (forall record metadata w,
     let fetched k := default EmptyString (metadata !! k) in
     let record' := fst (fst (merge record metadata w)) in
     let w' := snd (merge record metadata w) in
     page_title record'
     = (if PyStr.truthy (page_title record) then page_title record
        else fetched "title")
     /\ author record'
        = (if PyStr.truthy (author record) then author record
           else if PyStr.truthy (fetched "author") then fetched "author"
           else author record)
     /\ (sent w' <> sent w
         <-> fetched "favicon_url" <> EmptyString /\ favicon record = EmptyString)
     /\ (sent w' <> sent w ->
         sent w' = sent w ++ [mkRequest (fetched "favicon_url") HEADERS 10])
     /\ (favicon record <> EmptyString ->
         favicon record' = favicon record /\ files w' = files w))
  /\ (forall self commit w,
        let record := instance self in
        let record' := fst (fst (save self commit w)) in
        let w' := snd (save self commit w) in
        (page_title record <> EmptyString -> page_title record' = page_title record)
        /\ (author record <> EmptyString -> author record' = author record)
        /\ (favicon record <> EmptyString ->
            favicon record' = favicon record /\ files w' = files w)
        /\ (page_title record = "Existing" -> page_title record' = "Existing")).
Proof.
  split.
  - intros record metadata w. cbv zeta.
    pose proof (merge_spec record metadata w) as Hm. cbv zeta in Hm.
    destruct Hm as (_ & Ht & Ha & _ & _ & _ & Hfav).
    split; [done|]. split; [done|].
    destruct (PyStr.truthy (default EmptyString (metadata !! "favicon_url"))) eqn:Eu;
      destruct (PyStr.truthy (favicon record)) eqn:Ef; simpl in Hfav.
    + destruct Hfav as (Hfv & Hfl & Hs & _). rewrite Hs.
      apply truthy_true in Ef. by intuition.
    + destruct Hfav as [Hs _]. rewrite Hs.
      apply truthy_true in Eu. apply truthy_false in Ef.
      split; [|split; [done|by intros Hne]].
      split; [done|]. intros _. apply app_cons_neq.
    + destruct Hfav as (Hfv & Hfl & Hs & _). rewrite Hs.
      apply truthy_false in Eu. apply truthy_true in Ef. by intuition.
    + destruct Hfav as (Hfv & Hfl & Hs & _). rewrite Hs.
      apply truthy_false in Eu. by intuition.
  - intros self commit w. cbv zeta.
    pose proof (save_world self commit w) as Hc. cbv zeta in Hc.
    destruct Hc as (_ & _ & _ & ->). rewrite save_outcome.
    pose proof (fetch_and_merge_spec self (instance self) w) as Hm.
    cbv zeta in Hm. destruct Hm as (_ & Ht & Ha & Hf & _).
    split; [by intros E%truthy_true; apply Ht|].
    split; [by intros E%truthy_true; apply Ha|].
    split; [by intros E%truthy_true; destruct (Hf E) as (? & ? & _)|].
    intros E. rewrite Ht; [done|by rewrite E].
Qed.

Lemma C3_existing_title_witness :
  page_title (fst (fst (@save sample_externals titled_form true
                          (fresh_world sample_network))))
  = "Existing".
Proof.
  apply (proj2 (@C3_merge_fills_only_blanks sample_externals) titled_form true
           (fresh_world sample_network)).
  reflexivity.
Defined.




(** C9.  The extraction is deterministic: two invocations for the same URL,
    in any two worlds and with any two timeouts, whose GETs succeed with
    byte-identical content (whatever else differs: the status, the requests
    sent before, the log) return identical dictionaries, hence identical
    title, author and favicon URL. *)
Theorem C9_extraction_is_deterministic `{Externals}
    (url : string) (timeout1 timeout2 : Z) (w1 w2 : World)
    (response1 response2 : Response) :
  get_succeeded (network w1 (sent w1) (mkRequest url HEADERS timeout1)) response1 ->
  get_succeeded (network w2 (sent w2) (mkRequest url HEADERS timeout2)) response2 ->
  content response1 = content response2 ->
  fst (fetch_page_metadata url timeout1 w1)
  = fst (fetch_page_metadata url timeout2 w2).
Proof.
  intros H1 H2 Hc. rewrite !fetch_page_metadata_eq. cbv zeta. simpl.
  unfold try_fetch.
  rewrite (get_soup_succeeded _ response1 H1), (get_soup_succeeded _ response2 H2).
  by rewrite Hc.
Qed.

Lemma C9_extraction_witness :
  fst (@fetch_page_metadata sample_externals "https://x.com/a" 10
         (fresh_world sample_network))
  = fst (@fetch_page_metadata sample_externals "https://x.com/a" 3
           (Effects.warning "earlier" (fresh_world network_up))).
Proof.
  apply (@C9_extraction_is_deterministic sample_externals "https://x.com/a" 10 3
           (fresh_world sample_network)
           (Effects.warning "earlier" (fresh_world network_up))
           (mkResponse 200 sample_content) (mkResponse 200 sample_content)).
  - split; [reflexivity | vm_compute; intros [? ?]; congruence].
  - split; [reflexivity | vm_compute; intros [? ?]; congruence].
  - reflexivity.
Defined.

(** C10.  The fetch-and-merge step of [save] leaves every field of the
    record but page title, author and favicon as it was: primary key, quoted
    text, commentary, title, slug, source URL, tags, creation timestamp,
    draft flag, series, card image, metadata and import reference, for every
    form and every world, whether the fetch succeeds or fails.  The record
    that [save] returns differs from the one the form built in those three
    fields at most, and so does the record that an exception of line 114
    leaves behind. *)
Theorem C10_fetch_and_merge_frame `{Externals}
    (self : QuotebackAdminForm) (record : Quoteback) (commit : bool) (w : World) :
  let record' := fst (fst (fetch_and_merge self record w)) in
  (pk record' = pk record
   /\ quote_text record' = quote_text record
   /\ commentary record' = commentary record
   /\ title record' = title record
   /\ slug record' = slug record
   /\ source_url record' = source_url record
   /\ tags record' = tags record
   /\ created record' = created record
   /\ is_draft record' = is_draft record
   /\ series record' = series record
   /\ card_image record' = card_image record
   /\ metadata record' = metadata record
   /\ import_ref record' = import_ref record)
  /\ record'
     = set_favicon
         (set_author (set_page_title record (page_title record'))
            (author record'))
         (favicon record')
  /\ fst (save self commit w) = fst (fetch_and_merge self (instance self) w).
Proof.
  cbv zeta.
  pose proof (fetch_and_merge_spec self record w) as Hspec. cbv zeta in Hspec.
  destruct Hspec as [Hsame _]. split; [exact Hsame|]. split.
  - unfold same_but_fetched in Hsame.
    destruct (fst (fst (fetch_and_merge self record w))), record; simpl in *.
    unfold set_favicon, set_author, set_page_title; simpl.
    destruct Hsame as (-> & -> & -> & -> & -> & -> & -> & -> & -> & -> & -> & -> & ->).
    reflexivity.
  - apply save_outcome.
Qed.

(** ** The success path *)

(** X2.  When the GET succeeds, that is with any status that is no error status,
    and the parser delivers a page, the dictionary holds what the three
    extractors return for that page; the favicon URL stays empty when
    resolving it raised.  A final response with status 300 is such a
    success. *)
Theorem fetch_page_metadata_on_success `{Externals}
    (url : string) (timeout : Z) (w : World) (response : Response)
    (soup : Bs4.Tag) :
  get_succeeded (network w (sent w) (mkRequest url HEADERS timeout)) response ->
  html_parser (content response) = Value soup ->
  let found := fst (fetch_page_metadata url timeout w) in
  found !! "title" = Some (_extract_title soup url)
  /\ found !! "author" = Some (_extract_author soup)
  /\ found !! "favicon_url"
     = Some (match _extract_favicon_url soup url with
             | Value f => f
             | Raised _ => EmptyString
             end).
Proof.
  intros Hs Hp. cbv zeta. rewrite fetch_page_metadata_eq. cbv zeta. simpl.
  unfold try_fetch. rewrite (get_soup_succeeded _ response Hs), Hp.
  destruct (_extract_favicon_url soup url); simpl; unfold empty_metadata;
    by simplify_map_eq.
Qed.

Lemma fetch_status_300_witness :
  fst (@fetch_page_metadata sample_externals "https://x.com/a" 10
         (fresh_world network_choices)) !! "favicon_url"
  = Some "https://x.com/f.png".
Proof.
  apply (@fetch_page_metadata_on_success sample_externals "https://x.com/a" 10
           (fresh_world network_choices) (mkResponse 300 sample_content)
           page_shortcut_icon).
  - split; [reflexivity | vm_compute; intros [? ?]; congruence].
  - reflexivity.
Defined.

(** ** The requests of a save *)

(** X3.  A save sends at most two requests, one after the other: the GET of the
    source URL and then, at most, the favicon download.  Both carry the
    fixed [User-Agent] header and a timeout of 10. *)
Theorem save_sends_at_most_two_requests `{Externals}
    (self : QuotebackAdminForm) (commit : bool) (w : World) :
  exists new,
    sent (snd (save self commit w)) = sent w ++ new
    /\ (length new <= 2)%nat
    /\ Forall (fun r => req_headers r = HEADERS /\ req_timeout r = 10) new
    /\ (forall r, head new = Some r -> req_url r = source_url (instance self)).
Proof.
  pose proof (save_world self commit w) as Hc. cbv zeta in Hc.
  destruct Hc as (_ & -> & _). rewrite fetch_and_merge_eq.
  destruct (fetches self (instance self)).
  - pose proof (fetch_page_metadata_world (source_url (instance self)) 10 w) as Hw.
    cbv zeta in Hw. destruct Hw as (_ & Hs & _).
    pose proof (merge_spec (instance self)
                  (fst (fetch_page_metadata (source_url (instance self)) 10 w))
                  (snd (fetch_page_metadata (source_url (instance self)) 10 w))) as Hm.
    cbv zeta in Hm. destruct Hm as (_ & _ & _ & _ & _ & _ & Hm).
    destruct (PyStr.truthy _ && negb _).
    + destruct Hm as [-> _]. rewrite Hs, <- app_assoc. eexists. split; [done|].
      simpl. split; [lia|]. split; [by repeat constructor|].
      by intros r [= <-].
    + destruct Hm as (_ & _ & -> & _). rewrite Hs. eexists. split; [done|].
      simpl. split; [lia|]. split; [by repeat constructor|].
      by intros r [= <-].
  - exists []. simpl. rewrite app_nil_r. split; [done|]. split; [lia|].
    split; [constructor|done].
Qed.

(** ** More on strings: splitting and stripping *)

Lemma split_not_nil (sep : ascii) (s : string) : PyStr.split sep s <> [].
Proof.
  induction s as [|a s IH]; simpl; [done|].
  destruct (bool_decide (a = sep)); [done|].
  by destruct (PyStr.split sep s).
Qed.

Lemma split_no_sep (sep : ascii) (s : string) :
  Forall (fun w => PyStr.has_char sep w = false) (PyStr.split sep s).
Proof.
  induction s as [|a s IH]; simpl; [by repeat constructor|].
  destruct (bool_decide_reflect (a = sep)) as [->|Hne].
  - by constructor.
  - destruct (PyStr.split sep s) as [|w ws].
    { repeat constructor. simpl. by rewrite bool_decide_false. }
    inversion IH as [|? ? Hw Hws]; subst. constructor; [|done].
    simpl. rewrite Hw. by rewrite bool_decide_false.
Qed.

Lemma last_item_Forall (P : string -> Prop) (l : list string) :
  l <> [] -> Forall P l -> P (PyStr.last_item l).
Proof.
  unfold PyStr.last_item. induction l as [|w l IH]; [done|].
  intros _ Hall. inversion Hall as [|? ? Hw Hl]; subst.
  destruct l as [|w' l]; [done|]. apply IH; done.
Qed.

Lemma final_segment_no_slash (path : string) :
  PyStr.has_char "/"%char (final_segment path) = false.
Proof.
  unfold final_segment.
  apply (last_item_Forall (fun w => PyStr.has_char "/"%char w = false));
    [apply split_not_nil|apply split_no_sep].
Qed.

Lemma favicon_filename_plain (path : string) :
  favicon_filename path <> EmptyString
  /\ PyStr.has_char "."%char (favicon_filename path) = true
  /\ PyStr.has_char "/"%char (favicon_filename path) = false.
Proof.
  unfold favicon_filename.
  destruct (PyStr.has_char "." (final_segment path)) eqn:E.
  - split; [by destruct (final_segment path)|].
    split; [done|apply final_segment_no_slash].
  - by vm_compute.
Qed.

Lemma lstrip_by_empty (p : ascii -> bool) (s : string) :
  PyStr.lstrip_by p s = EmptyString <-> PyStr.all_chars p s = true.
Proof.
  induction s as [|a s IH]; simpl; [done|].
  destruct (p a); simpl; [done|]. split; discriminate.
Qed.

Lemma rstrip_by_empty (p : ascii -> bool) (s : string) :
  PyStr.rstrip_by p s = EmptyString <-> PyStr.all_chars p s = true.
Proof.
  induction s as [|a s IH]; simpl; [done|].
  destruct (PyStr.rstrip_by p s) as [|b r].
  - destruct (p a); simpl; [by rewrite <- IH|]. split; discriminate.
  - split; [discriminate|]. rewrite andb_true_iff. intros [_ Hs].
    by apply IH in Hs.
Qed.

Lemma all_chars_lstrip_by (p : ascii -> bool) (s : string) :
  PyStr.all_chars p (PyStr.lstrip_by p s) = PyStr.all_chars p s.
Proof.
  induction s as [|a s IH]; simpl; [done|].
  destruct (p a) eqn:E; simpl; [done|]. by rewrite E.
Qed.

(** Stripping leaves nothing exactly when every character is stripped. *)
Lemma strip_by_empty (p : ascii -> bool) (s : string) :
  PyStr.strip_by p s = EmptyString <-> PyStr.all_chars p s = true.
Proof.
  unfold PyStr.strip_by. by rewrite rstrip_by_empty, all_chars_lstrip_by.
Qed.

Lemma lstrip_by_head (p : ascii -> bool) (s : string) (a : ascii) (t : string) :
  PyStr.lstrip_by p s = String a t -> p a = false.
Proof.
  induction s as [|b s IH]; simpl; [done|].
  destruct (p b) eqn:E; [done|]. by intros [= <- _].
Qed.

Lemma lstrip_by_fixed (p : ascii -> bool) (s : string) :
  match s with
  | EmptyString => True
  | String a _ => p a = false
  end ->
  PyStr.lstrip_by p s = s.
Proof. destruct s as [|a s]; simpl; [done|]. by intros ->. Qed.

Lemma rstrip_by_head (p : ascii -> bool) (a b : ascii) (s t : string) :
  PyStr.rstrip_by p (String a s) = String b t -> b = a.
Proof.
  simpl. destruct (PyStr.rstrip_by p s); [destruct (p a)|]; congruence.
Qed.

Lemma rstrip_by_idem (p : ascii -> bool) (s : string) :
  PyStr.rstrip_by p (PyStr.rstrip_by p s) = PyStr.rstrip_by p s.
Proof.
  induction s as [|a s IH]; simpl; [done|].
  destruct (PyStr.rstrip_by p s) as [|b r] eqn:E.
  - destruct (p a) eqn:Ea; simpl; [done|]. by rewrite Ea.
  - change (PyStr.rstrip_by p (String a (String b r)))
      with (match PyStr.rstrip_by p (String b r) with
            | EmptyString => if p a then EmptyString else String a EmptyString
            | r' => String a r'
            end).
    by rewrite IH.
Qed.

(** Stripping twice is stripping once. *)
Lemma strip_by_idem (p : ascii -> bool) (s : string) :
  PyStr.strip_by p (PyStr.strip_by p s) = PyStr.strip_by p s.
Proof.
  unfold PyStr.strip_by.
  rewrite (lstrip_by_fixed p (PyStr.rstrip_by p (PyStr.lstrip_by p s))).
  - apply rstrip_by_idem.
  - destruct (PyStr.lstrip_by p s) as [|a t] eqn:E; [done|].
    destruct (PyStr.rstrip_by p (String a t)) as [|b u] eqn:E'; [done|].
    apply rstrip_by_head in E' as ->. by eapply lstrip_by_head.
Qed.

Lemma lstrip_head (chars s : string) (a : ascii) (t : string) :
  PyStr.lstrip chars s = String a t -> PyStr.has_char a chars = false.
Proof.
  induction s as [|b s IH]; simpl; [done|].
  destruct (PyStr.has_char b chars) eqn:E; [done|]. by intros [= <- _].
Qed.

Lemma lstrip_split (chars s : string) :
  exists prefix,
    s = prefix +:+ PyStr.lstrip chars s
    /\ PyStr.all_chars (fun c => PyStr.has_char c chars) prefix = true.
Proof.
  induction s as [|a s (prefix & Hs & Hp)]; [by exists EmptyString|]. simpl.
  destruct (PyStr.has_char a chars) eqn:E.
  - exists (String a prefix). rewrite append_cons, <- Hs. simpl. by rewrite E, Hp.
  - by exists EmptyString.
Qed.

(** ** More on the extractors and the download *)

(** X4.  Whatever the favicon URL and the world, a file that
    [download_favicon] returns has a plain name: the name is not empty, holds
    a dot and holds no slash. *)
Theorem download_file_name_is_plain `{Externals}
    (url : string) (timeout : Z) (w : World) (f : ContentFile) :
  fst (download_favicon url timeout w) = Some f ->
  cf_name f <> EmptyString
  /\ PyStr.has_char "."%char (cf_name f) = true
  /\ PyStr.has_char "/"%char (cf_name f) = false.
Proof.
  rewrite download_favicon_eq. cbv zeta.
  destruct (favicon_file_of url _) as [f'|e] eqn:Hf; [|done].
  simpl. intros [= ->].
  destruct (favicon_file_inv url _ f Hf) as (response & parsed & _ & _ & ->).
  apply favicon_filename_plain.
Qed.

Lemma download_file_name_witness :
  cf_name (mkContentFile sample_content "favicon.ico") <> EmptyString
  /\ PyStr.has_char "."%char (cf_name (mkContentFile sample_content "favicon.ico"))
     = true
  /\ PyStr.has_char "/"%char (cf_name (mkContentFile sample_content "favicon.ico"))
     = false.
Proof.
  apply (@download_file_name_is_plain sample_externals "https://x.com/static/"
           10 (fresh_world network_up)).
  vm_compute. reflexivity.
Defined.



Lemma extract_author_from_creator (soup : Bs4.Tag) :
  meta_content soup "property" "article:author" = EmptyString ->
  meta_content soup "name" "author" = EmptyString ->
  _extract_author soup
  = PyStr.lstrip "@" (meta_content soup "name" "twitter:creator").
Proof.
  intros H1 H2. unfold _extract_author.
  rewrite !found_meta by done. rewrite H1, H2. simpl.
  by destruct (meta_content soup "name" "twitter:creator").
Qed.

(** X6.  On a page without article:author and author content, the author is
    the twitter:creator content without its leading [@] characters, all of
    them and nothing else: the content is a run of [@] followed by the
    author, and the author does not start with [@]. *)
Theorem author_drops_all_leading_at_signs (soup : Bs4.Tag) :
  meta_content soup "property" "article:author" = EmptyString ->
  meta_content soup "name" "author" = EmptyString ->
  exists ats,
    meta_content soup "name" "twitter:creator" = ats +:+ _extract_author soup
    /\ PyStr.all_chars (fun c => PyStr.has_char c "@") ats = true
    /\ PyStr.startswith (_extract_author soup) "@" = false.
Proof.
  intros H1 H2. rewrite (extract_author_from_creator soup H1 H2).
  destruct (lstrip_split "@" (meta_content soup "name" "twitter:creator"))
    as (ats & Hs & Ha).
  exists ats. split; [done|]. split; [done|].
  destruct (PyStr.lstrip "@" _) as [|a t] eqn:E; [done|].
  apply lstrip_head in E. simpl in E. rewrite orb_false_r in E.
  apply bool_decide_eq_false in E. simpl.
  rewrite bool_decide_false; [done|congruence].
Qed.

Lemma author_drops_at_signs_witness :
  exists ats,
    meta_content page_twitter_creator "name" "twitter:creator"
    = ats +:+ _extract_author page_twitter_creator
    /\ PyStr.all_chars (fun c => PyStr.has_char c "@") ats = true
    /\ PyStr.startswith (_extract_author page_twitter_creator) "@" = false.
Proof.
  apply (author_drops_all_leading_at_signs page_twitter_creator);
    vm_compute; reflexivity.
Defined.

Lemma extract_favicon_chain `{Externals} (soup : Bs4.Tag) (base_url : string) :
  _extract_favicon_url soup base_url
  = if PyStr.truthy (link_href rel_contains_icon soup)
    then Urllib.urljoin base_url (link_href rel_contains_icon soup)
    else if PyStr.truthy (link_href (rel_is "apple-touch-icon") soup)
    then Urllib.urljoin base_url (link_href (rel_is "apple-touch-icon") soup)
    else try! parsed <- Urllib.urlparse base_url EmptyString;
         Value (Urllib.scheme parsed +:+ "://" +:+ Urllib.netloc parsed
                +:+ "/favicon.ico").
Proof.
  unfold _extract_favicon_url.
  rewrite find_icon_link, find_rel_link by done.
  rewrite !found_attr_spec. fold (link_href rel_contains_icon soup).
  fold (link_href (rel_is "apple-touch-icon") soup).
  destruct (PyStr.truthy (link_href rel_contains_icon soup)); [done|].
  by destruct (PyStr.truthy (link_href (rel_is "apple-touch-icon") soup)).
Qed.

Lemma rel_is_contains_icon (t : Bs4.Tag) :
  rel_is "apple-touch-icon" t = true -> rel_contains_icon t = true.
Proof.
  unfold rel_is, rel_contains_icon.
  destruct (Bs4.attrs t !! "rel") as [raw|]; [|done].
  intros Hin%bool_decide_eq_true.
  rewrite <- (tokens_contain "icon" raw) by (apply spaceless_icon || done).
  apply existsb_exists. exists "apple-touch-icon".
  split; [by apply list_elem_of_In|]. by vm_compute.
Qed.

Lemma first_tag_Some (nm : string) (p : Bs4.Tag -> bool) (soup t : Bs4.Tag) :
  first_tag nm p soup = Some t ->
  t ∈ Bs4.descendants soup /\ Bs4.name t = nm /\ p t = true.
Proof.
  intros Hf. apply find_some in Hf as [Hin Hp].
  apply andb_true_iff in Hp as [Hn Hp]. apply bool_decide_eq_true in Hn.
  split; [by apply list_elem_of_In|done].
Qed.

Lemma first_tag_None (nm : string) (p : Bs4.Tag -> bool) (soup t : Bs4.Tag) :
  first_tag nm p soup = None ->
  t ∈ Bs4.descendants soup -> Bs4.name t = nm -> p t = false.
Proof.
  intros Hf Hin Hn. apply list_elem_of_In in Hin.
  pose proof (find_none _ _ Hf t Hin) as Hp. simpl in Hp.
  rewrite bool_decide_true in Hp by done. done.
Qed.

(** X7.  Every link that the apple-touch-icon step of
    [_extract_favicon_url] matches is matched by the icon step before it.
    So the result comes from the apple-touch-icon step only on a page with
    two different links whose rel contains [icon], of which the first in the
    document has no href; and a page without a link whose rel contains
    [icon] gets the fallback. *)
Theorem apple_touch_icon_step_is_shadowed `{Externals} (soup : Bs4.Tag) :
  (forall t, rel_is "apple-touch-icon" t = true -> rel_contains_icon t = true)
  /\ (link_href rel_contains_icon soup = EmptyString ->
      link_href (rel_is "apple-touch-icon") soup <> EmptyString ->
      exists first_icon apple,
        first_tag "link" rel_contains_icon soup = Some first_icon
        /\ first_tag "link" (rel_is "apple-touch-icon") soup = Some apple
        /\ first_icon <> apple
        /\ rel_contains_icon apple = true
        /\ default EmptyString (Bs4.attrs first_icon !! "href") = EmptyString)
  /\ (first_tag "link" rel_contains_icon soup = None ->
      forall base_url,
        _extract_favicon_url soup base_url
        = (try! parsed <- Urllib.urlparse base_url EmptyString;
           Value (Urllib.scheme parsed +:+ "://" +:+ Urllib.netloc parsed
                  +:+ "/favicon.ico"))).
Proof.
  split; [apply rel_is_contains_icon|]. split.
  - unfold link_href. intros Hicon Happle.
    destruct (first_tag "link" (rel_is "apple-touch-icon") soup) as [apple|] eqn:Ea;
      [|done].
    destruct (first_tag_Some _ _ _ _ Ea) as (Hin & Hn & Hrel).
    apply rel_is_contains_icon in Hrel.
    destruct (first_tag "link" rel_contains_icon soup) as [first_icon|] eqn:Ei.
    + exists first_icon, apple. repeat split; try done.
      intros ->. simpl in *. congruence.
    + rewrite (first_tag_None _ _ _ apple Ei Hin Hn) in Hrel. done.
  - intros Hnone base_url. rewrite extract_favicon_chain.
    assert (first_tag "link" (rel_is "apple-touch-icon") soup = None) as Hno.
    { destruct (first_tag "link" (rel_is "apple-touch-icon") soup) as [apple|] eqn:Ea;
        [|done].
      destruct (first_tag_Some _ _ _ _ Ea) as (Hin & Hn & Hrel).
      apply rel_is_contains_icon in Hrel.
      rewrite (first_tag_None _ _ _ apple Hnone Hin Hn) in Hrel. done. }
    unfold link_href. by rewrite Hnone, Hno.
Qed.

Lemma apple_touch_icon_witness :
  exists first_icon apple,
    first_tag "link" rel_contains_icon page_two_icons = Some first_icon
    /\ first_tag "link" (rel_is "apple-touch-icon") page_two_icons = Some apple
    /\ first_icon <> apple
    /\ rel_contains_icon apple = true
    /\ default EmptyString (Bs4.attrs first_icon !! "href") = EmptyString.
Proof.
  apply (proj1 (proj2 (@apple_touch_icon_step_is_shadowed sample_externals
                         page_two_icons))).
  - vm_compute. reflexivity.
  - vm_compute. discriminate.
Defined.

(** ** The shape of what [urlparse] returns *)

Lemma has_char_app (c : ascii) (x y : string) :
  PyStr.has_char c (x +:+ y) = PyStr.has_char c x || PyStr.has_char c y.
Proof.
  induction x as [|a x IH]; [done|]. rewrite append_cons. simpl.
  by rewrite IH, orb_assoc.
Qed.

Lemma remove_char_free (d : ascii) (s : string) :
  PyStr.has_char d (PyStr.remove_char d s) = false.
Proof.
  induction s as [|a s IH]; simpl; [done|].
  destruct (bool_decide_reflect (a = d)) as [->|Hne]; [done|].
  simpl. rewrite IH. by rewrite bool_decide_false.
Qed.

Lemma remove_char_id (d : ascii) (s : string) :
  PyStr.has_char d s = false -> PyStr.remove_char d s = s.
Proof.
  induction s as [|a s IH]; simpl; [done|].
  intros [Ha Hs]%orb_false_iff. rewrite Ha. by rewrite IH.
Qed.

Lemma remove_char_keeps_free (c d : ascii) (s : string) :
  PyStr.has_char c s = false -> PyStr.has_char c (PyStr.remove_char d s) = false.
Proof.
  intros Hc. destruct (PyStr.has_char c (PyStr.remove_char d s)) eqn:E; [|done].
  apply remove_char_within in E. congruence.
Qed.

(** [remove_unsafe] changes nothing exactly where nothing is to remove. *)
Lemma remove_unsafe_id (s : string) :
  PyStr.has_char "009"%char s = false -> PyStr.has_char "013"%char s = false ->
  PyStr.has_char "010"%char s = false ->
  Urllib.remove_unsafe s = s.
Proof.
  intros Ht Hr Hn. unfold Urllib.remove_unsafe.
  by rewrite (remove_char_id "009"), (remove_char_id "013"),
    (remove_char_id "010").
Qed.

Lemma remove_unsafe_free (s : string) :
  PyStr.has_char "009"%char (Urllib.remove_unsafe s) = false
  /\ PyStr.has_char "013"%char (Urllib.remove_unsafe s) = false
  /\ PyStr.has_char "010"%char (Urllib.remove_unsafe s) = false.
Proof.
  unfold Urllib.remove_unsafe. split; [|split].
  - apply remove_char_keeps_free, remove_char_keeps_free, remove_char_free.
  - apply remove_char_keeps_free, remove_char_free.
  - apply remove_char_free.
Qed.

Lemma free_within (c : ascii) (s t : string) :
  chars_within s t -> PyStr.has_char c t = false -> PyStr.has_char c s = false.
Proof.
  intros Hst Hc. destruct (PyStr.has_char c s) eqn:E; [|done].
  apply Hst in E. congruence.
Qed.

Lemma span_until_free (stops s : string) (c : ascii) :
  PyStr.has_char c stops = true ->
  PyStr.has_char c (fst (PyStr.span_until stops s)) = false.
Proof.
  intros Hc. induction s as [|a s IH]; simpl; [done|].
  destruct (PyStr.has_char a stops) eqn:Ea; [done|].
  destruct (PyStr.span_until stops s) as [l r]. simpl in *.
  rewrite IH, orb_false_r. apply bool_decide_false. intros ->. congruence.
Qed.

Lemma span_until_app (stops x : string) (a : ascii) (y : string) :
  (forall c, PyStr.has_char c stops = true -> PyStr.has_char c x = false) ->
  PyStr.has_char a stops = true ->
  PyStr.span_until stops (x +:+ String a y) = (x, String a y).
Proof.
  intros Hx Ha. induction x as [|b x IH].
  - rewrite append_nil_l. simpl. by rewrite Ha.
  - rewrite append_cons. simpl.
    destruct (PyStr.has_char b stops) eqn:Eb.
    + specialize (Hx b Eb). simpl in Hx. by rewrite bool_decide_true in Hx.
    + rewrite IH; [done|]. intros c Hc. specialize (Hx c Hc).
      simpl in Hx. by apply orb_false_iff in Hx as [_ ?].
Qed.

Lemma partition_app (sep : ascii) (x y : string) :
  PyStr.has_char sep x = false ->
  PyStr.partition sep (x +:+ String sep y) = Some (x, y).
Proof.
  intros Hx. induction x as [|a x IH].
  - rewrite append_nil_l. simpl. by rewrite bool_decide_true.
  - rewrite append_cons. simpl. simpl in Hx.
    apply orb_false_iff in Hx as [Ha Hx]. rewrite Ha, IH; done.
Qed.

Lemma lower_char_idem (c : ascii) :
  PyStr.lower_char (PyStr.lower_char c) = PyStr.lower_char c.
Proof. destruct c as [[] [] [] [] [] [] [] []]; vm_compute; reflexivity. Qed.

Lemma lower_idem (s : string) : PyStr.lower (PyStr.lower s) = PyStr.lower s.
Proof.
  induction s as [|a s IH]; simpl; [done|]. by rewrite lower_char_idem, IH.
Qed.

Lemma scheme_char_lower (c : ascii) :
  Urllib.scheme_char c = true ->
  Urllib.scheme_char (PyStr.lower_char c) = true
  /\ (PyStr.is_ascii_alpha c = true -> PyStr.is_ascii_alpha (PyStr.lower_char c) = true).
Proof. destruct c as [[] [] [] [] [] [] [] []]; vm_compute; by intuition. Qed.

(** What a scheme character is not. *)
Lemma scheme_char_plain (c : ascii) :
  Urllib.scheme_char c = true ->
  c <> ":"%char /\ c <> "009"%char /\ c <> "013"%char /\ c <> "010"%char
  /\ Urllib.c0_control_or_space c = false.
Proof.
  destruct c as [[] [] [] [] [] [] [] []]; vm_compute; intros; try done;
    repeat split; congruence.
Qed.

Lemma all_scheme_chars_free (s : string) (c : ascii) :
  PyStr.all_chars Urllib.scheme_char s = true ->
  Urllib.scheme_char c = false ->
  PyStr.has_char c s = false.
Proof.
  intros Hs Hc. induction s as [|a s IH]; simpl; [done|].
  simpl in Hs. apply andb_true_iff in Hs as [Ha Hs].
  rewrite (IH Hs), orb_false_r. apply bool_decide_false. intros ->. congruence.
Qed.

Lemma all_scheme_chars_lower (s : string) :
  PyStr.all_chars Urllib.scheme_char s = true ->
  PyStr.all_chars Urllib.scheme_char (PyStr.lower s) = true.
Proof.
  induction s as [|b s IH]; simpl; [done|].
  intros [Hb Hs]%andb_true_iff.
  rewrite (proj1 (scheme_char_lower b Hb)). by apply IH.
Qed.

Lemma split_scheme_shaped (url : string) :
  fst (Urllib.split_scheme url EmptyString) = EmptyString
  \/ scheme_shaped (fst (Urllib.split_scheme url EmptyString)).
Proof.
  unfold Urllib.split_scheme.
  destruct (PyStr.partition ":" url) as [[pre rest]|]; [|by left].
  destruct pre as [|a pre]; [by left|].
  destruct (PyStr.is_ascii_alpha a && PyStr.all_chars Urllib.scheme_char _) eqn:E;
    [|by left].
  right. apply andb_true_iff in E as [Ha Hall].
  change (fst (PyStr.lower (String a pre), rest)) with (PyStr.lower (String a pre)).
  split; [|split].
  - by apply all_scheme_chars_lower.
  - apply lower_idem.
  - simpl. simpl in Hall. apply andb_true_iff in Hall as [Ha' _].
    by apply scheme_char_lower.
Qed.

Lemma split_netloc_shaped `{Externals} (url netloc rest : string) :
  Urllib.remove_unsafe url = url ->
  Urllib.split_netloc url = Value (netloc, rest) ->
  netloc_shaped netloc.
Proof.
  intros Hclean Hs.
  assert (netloc_shaped EmptyString) as Hempty.
  { split; [done|]. split; [done|]. by vm_compute. }
  assert (forall c, PyStr.has_char c url = false ->
                    chars_within netloc url -> PyStr.has_char c netloc = false)
    as Hfree by (intros c Hc Hw; by eapply free_within).
  unfold Urllib.split_netloc in Hs.
  destruct url as [|a [|b tail]].
  { simpl in Hs. injection Hs as <- _. exact Hempty. }
  { destruct a as [[] [] [] [] [] [] [] []]; simpl in Hs;
      injection Hs as <- _; exact Hempty. }
  destruct (Ascii.ascii_dec a "/") as [->|Ha];
    [destruct (Ascii.ascii_dec b "/") as [->|Hb]|].
  - pose proof (span_until_within "/?#" tail) as Hw.
    pose proof (span_until_free "/?#" tail) as Hstops.
    destruct (PyStr.span_until "/?#" tail) as [n u]. simpl in Hw, Hstops.
    destruct ((PyStr.has_char "[" n && negb (PyStr.has_char "]" n))
              || (PyStr.has_char "]" n && negb (PyStr.has_char "[" n))) eqn:E1;
      [done|].
    destruct (PyStr.has_char "[" n && PyStr.has_char "]" n
              && negb (check_bracketed_netloc n)) eqn:E2; [done|].
    injection Hs as <- _.
    assert (chars_within n (String "/" (String "/" tail))) as Hw'.
    { eapply within_trans; [exact Hw|].
      eapply within_trans; apply within_tail. }
    destruct (remove_unsafe_free (String "/" (String "/" tail))) as (Ht & Hr & Hn).
    rewrite Hclean in Ht, Hr, Hn.
    split; [exact Hstops|]. split.
    + apply remove_unsafe_id; by apply Hfree.
    + unfold brackets_pass. cbv zeta. by rewrite E1, E2.
  - destruct b as [[] [] [] [] [] [] [] []];
      try (injection Hs as <- _; exact Hempty); done.
  - destruct a as [[] [] [] [] [] [] [] []];
      try (injection Hs as <- _; exact Hempty); done.
Qed.

Lemma urlparse_shaped `{Externals} (url : string) (parsed : Urllib.ParseResult) :
  Urllib.urlparse url EmptyString = Value parsed ->
  (Urllib.scheme parsed = EmptyString \/ scheme_shaped (Urllib.scheme parsed))
  /\ netloc_shaped (Urllib.netloc parsed).
Proof.
  unfold Urllib.urlparse, Urllib.urlsplit.
  set (url1 := Urllib.remove_unsafe (PyStr.lstrip_by Urllib.c0_control_or_space url)).
  change (Urllib.remove_unsafe (PyStr.strip_by Urllib.c0_control_or_space EmptyString))
    with EmptyString.
  pose proof (split_scheme_shaped url1) as Hscheme.
  pose proof (split_scheme_within url1 EmptyString) as Hwithin.
  destruct (Urllib.split_scheme url1 EmptyString) as [scheme2 url2].
  simpl in Hscheme, Hwithin.
  assert (Urllib.remove_unsafe url2 = url2) as Hclean.
  { destruct (remove_unsafe_free
                (PyStr.lstrip_by Urllib.c0_control_or_space url)) as (Ht & Hr & Hn).
    fold url1 in Ht, Hr, Hn.
    apply remove_unsafe_id; by eapply free_within. }
  destruct (Urllib.split_netloc url2) as [[netloc url3]|e] eqn:Hnet; [|done].
  apply split_netloc_shaped in Hnet; [|done]. simpl.
  destruct (Urllib.split_once "#" url3) as [url4 fragment].
  destruct (Urllib.split_once "?" url4) as [url5 query]. simpl.
  destruct (bool_decide _ && _); [destruct (Urllib._splitparams url5)|];
    by intros [= <-].
Qed.

Lemma scheme_shaped_free (s : string) (c : ascii) :
  scheme_shaped s -> Urllib.scheme_char c = false -> PyStr.has_char c s = false.
Proof. intros [Hall _]. by apply all_scheme_chars_free. Qed.

(** The fallback favicon URL, built from a scheme and a netloc that
    [urlparse] returned, is read by [urlparse] as that scheme, that netloc
    and the path [/favicon.ico]. *)
Lemma urlparse_favicon_url `{Externals} (s n : string) :
  scheme_shaped s -> netloc_shaped n ->
  Urllib.urlparse (s +:+ "://" +:+ n +:+ "/favicon.ico") EmptyString
  = Value (Urllib.mkParse s n "/favicon.ico" EmptyString EmptyString EmptyString).
Proof.
  intros Hs (Hstops & Hclean & Hbr).
  assert (forall c, Urllib.scheme_char c = false ->
            PyStr.has_char c n = false ->
            PyStr.has_char c "://" = false ->
            PyStr.has_char c "/favicon.ico" = false ->
            PyStr.has_char c (s +:+ "://" +:+ n +:+ "/favicon.ico") = false)
    as Hfree.
  { intros c Hc Hn H1 H2. rewrite !has_char_app, Hn, H1, H2.
    by rewrite (scheme_shaped_free s c Hs Hc). }
  destruct (remove_unsafe_free n) as (Ht & Hr & Hn). rewrite Hclean in Ht, Hr, Hn.
  unfold Urllib.urlparse, Urllib.urlsplit.
  change (Urllib.remove_unsafe (PyStr.strip_by Urllib.c0_control_or_space EmptyString))
    with EmptyString.
  assert (PyStr.lstrip_by Urllib.c0_control_or_space
            (s +:+ "://" +:+ n +:+ "/favicon.ico")
          = s +:+ "://" +:+ n +:+ "/favicon.ico") as ->.
  { destruct Hs as (Hall & _ & Hhead). destruct s as [|a s]; [done|].
    rewrite append_cons. simpl. simpl in Hall.
    apply andb_true_iff in Hall as [Ha _].
    by rewrite (proj2 (proj2 (proj2 (proj2 (scheme_char_plain a Ha))))). }
  rewrite remove_unsafe_id by (apply Hfree; done).
  assert (Urllib.split_scheme (s +:+ "://" +:+ n +:+ "/favicon.ico") EmptyString
          = (s, "//" +:+ n +:+ "/favicon.ico")) as ->.
  { unfold Urllib.split_scheme.
    change (s +:+ "://" +:+ n +:+ "/favicon.ico")
      with (s +:+ String ":" ("//" +:+ n +:+ "/favicon.ico")).
    rewrite partition_app by (by apply scheme_shaped_free).
    destruct Hs as (Hall & Hlow & Hhead). destruct s as [|a s]; [done|].
    by rewrite Hhead, Hall, Hlow. }
  assert (Urllib.split_netloc ("//" +:+ n +:+ "/favicon.ico")
          = Value (n, "/favicon.ico")) as ->.
  { change ("//" +:+ n +:+ "/favicon.ico")
      with (String "/" (String "/" (n +:+ String "/" "favicon.ico"))).
    unfold Urllib.split_netloc.
    rewrite span_until_app by done.
    unfold brackets_pass in Hbr. cbv zeta in Hbr.
    apply andb_true_iff in Hbr as [H1 H2].
    apply negb_true_iff in H1, H2. by rewrite H1, H2. }
  simpl. by rewrite andb_false_r.
Qed.

(** X8.  When no link supplies an href and the base URL has a scheme, the
    fallback favicon URL that [_extract_favicon_url] builds is read back by
    [urlparse] as the scheme and the netloc of the base URL with the path
    [/favicon.ico]; and [download_favicon], when its GET of that URL
    succeeds, names the file [favicon.ico]. *)
Theorem fallback_favicon_url_round_trip `{Externals}
    (soup : Bs4.Tag) (base_url : string) (parsed : Urllib.ParseResult) :
  link_href rel_contains_icon soup = EmptyString ->
  link_href (rel_is "apple-touch-icon") soup = EmptyString ->
  Urllib.urlparse base_url EmptyString = Value parsed ->
  Urllib.scheme parsed <> EmptyString ->
  exists favicon_url,
    _extract_favicon_url soup base_url = Value favicon_url
    /\ Urllib.urlparse favicon_url EmptyString
       = Value (Urllib.mkParse (Urllib.scheme parsed) (Urllib.netloc parsed)
                  "/favicon.ico" EmptyString EmptyString EmptyString)
    /\ (forall timeout w response,
          get_succeeded
            (network w (sent w) (mkRequest favicon_url HEADERS timeout)) response ->
          fst (download_favicon favicon_url timeout w)
          = Some (mkContentFile (content response) "favicon.ico")).
Proof.
  intros H1 H2 Hp Hscheme.
  destruct (urlparse_shaped base_url parsed Hp) as [[Hs|Hs] Hn]; [done|].
  pose proof (urlparse_favicon_url _ _ Hs Hn) as Hback.
  eexists. split; [|split; [exact Hback|]].
  - rewrite extract_favicon_chain, H1, H2, Hp. reflexivity.
  - intros timeout w response Hok. rewrite download_favicon_eq. cbv zeta.
    by rewrite (favicon_file_succeeded _ _ response _ Hok Hback).
Qed.

Lemma fallback_favicon_url_witness :
  exists favicon_url,
    @_extract_favicon_url sample_externals page_bare "https://x.com:8443/a/b?c"
    = Value favicon_url
    /\ @Urllib.urlparse sample_externals favicon_url EmptyString
       = Value (Urllib.mkParse "https" "x.com:8443" "/favicon.ico"
                  EmptyString EmptyString EmptyString)
    /\ (forall timeout w response,
          get_succeeded
            (network w (sent w) (mkRequest favicon_url HEADERS timeout)) response ->
          fst (@download_favicon sample_externals favicon_url timeout w)
          = Some (mkContentFile (content response) "favicon.ico")).
Proof.
  apply (@fallback_favicon_url_round_trip sample_externals page_bare
           "https://x.com:8443/a/b?c"
           (Urllib.mkParse "https" "x.com:8443" "/a/b" EmptyString "c" EmptyString));
    vm_compute; (reflexivity || discriminate).
Defined.

(** ** The save, end to end *)

Lemma try_fetch_succeeded `{Externals} (url : string) (r : Exc Response)
    (response : Response) (soup : Bs4.Tag) (favicon_url : string) :
  get_succeeded r response ->
  html_parser (content response) = Value soup ->
  _extract_favicon_url soup url = Value favicon_url ->
  try_fetch url r empty_metadata
  = (<[ "favicon_url" := favicon_url ]>
       (<[ "author" := _extract_author soup ]>
          (<[ "title" := _extract_title soup url ]> empty_metadata)),
     None).
Proof.
  intros Hs Hp Hf. unfold try_fetch.
  by rewrite (get_soup_succeeded _ response Hs), Hp, Hf.
Qed.

(** X9.  The save of a record with a blank page title, author and favicon,
    when it fetches, both GETs succeed and the page is parsed: the page
    title and the author are what the extractors return for the page, the
    favicon is downloaded from the favicon URL the extractor returns, the two
    requests are the only ones and no warning is logged.  What follows
    depends on storage.  When it accepts the name derived from the favicon
    URL, the file is stored, the record takes the name storage gave it,
    [save] returns, and with [commit] the record returned is the one
    written.  When it refuses the name, the exception leaves [save]: no file
    is stored, the favicon stays blank and nothing is written, with or
    without [commit]; the page title and the author were set before. *)
Theorem save_fills_blank_record `{Externals}
    (self : QuotebackAdminForm) (commit : bool) (w : World)
    (page icon : Response) (soup : Bs4.Tag) (favicon_url : string)
    (parsed : Urllib.ParseResult) :
  let record := instance self in
  let page_request := mkRequest (source_url record) HEADERS 10 in
  let icon_request := mkRequest favicon_url HEADERS 10 in
  fetches self record = true ->
  page_title record = EmptyString ->
  author record = EmptyString ->
  favicon record = EmptyString ->
  get_succeeded (network w (sent w) page_request) page ->
  html_parser (content page) = Value soup ->
  _extract_favicon_url soup (source_url record) = Value favicon_url ->
  favicon_url <> EmptyString ->
  get_succeeded (network w (sent w ++ [page_request]) icon_request) icon ->
  Urllib.urlparse favicon_url EmptyString = Value parsed ->
  exists record' raised w',
    save self commit w = ((record', raised), w')
    /\ page_title record' = _extract_title soup (source_url record)
    /\ author record' = _extract_author soup
    /\ same_but_fetched record record'
    /\ sent w' = sent w ++ [page_request; icon_request]
    /\ warnings w' = warnings w
    /\ match storage_save (files w) (favicon_filename (Urllib.path parsed)) with
       | Value stored =>
           raised = None
           /\ favicon record' = stored
           /\ files w' = files w ++ [(stored, content icon)]
           /\ saved w' = saved w ++ (if commit then [record'] else [])
           /\ m2m_saved w' = (m2m_saved w + (if commit then 1 else 0))%nat
       | Raised e =>
           raised = Some e
           /\ favicon record' = EmptyString
           /\ files w' = files w
           /\ saved w' = saved w
           /\ m2m_saved w' = m2m_saved w
       end.
Proof.
  cbv zeta. intros Hfetch Ht Ha Hfav Hpage Hparse Hurl Hne Hicon Hp.
  rewrite save_eq, fetch_and_merge_eq, Hfetch. cbv zeta.
  rewrite fetch_page_metadata_eq. cbv zeta.
  rewrite (try_fetch_succeeded _ _ page soup favicon_url Hpage Hparse Hurl).
  cbn [fst snd]. rewrite merge_eq. cbv zeta.
  rewrite Ht. cbn [PyStr.truthy author set_page_title]. rewrite Ha, Hfav.
  unfold empty_metadata. simplify_map_eq.
  apply truthy_true in Hne. rewrite Hne. cbn [andb].
  rewrite download_favicon_eq. cbv zeta.
  cbn [sent network Effects.sending].
  rewrite (favicon_file_succeeded _ _ icon parsed Hicon Hp).
  unfold Effects.FieldFile_save.
  cbn [fst snd cf_name cf_content files Effects.sending].
  destruct (storage_save (files w) (favicon_filename (Urllib.path parsed)))
    as [stored|e].
  - destruct (PyStr.truthy (_extract_author soup)) eqn:Eauthor.
    + eexists _, _, _. split; [reflexivity|].
      destruct commit; simpl; rewrite <- ?app_assoc, ?app_nil_r, ?Nat.add_0_r,
        ?Nat.add_1_r; by repeat split.
    + apply truthy_false in Eauthor. rewrite Eauthor.
      eexists _, _, _. split; [reflexivity|].
      destruct commit; simpl; rewrite <- ?app_assoc, ?app_nil_r, ?Nat.add_0_r,
        ?Nat.add_1_r; by repeat split.
  - destruct (PyStr.truthy (_extract_author soup)) eqn:Eauthor.
    + eexists _, _, _. split; [reflexivity|].
      simpl; rewrite <- ?app_assoc; by repeat split.
    + apply truthy_false in Eauthor. rewrite Eauthor.
      eexists _, _, _. split; [reflexivity|].
      simpl; rewrite <- ?app_assoc; by repeat split.
Qed.

Lemma save_fills_blank_record_witness :
  exists record' raised w',
    @save sample_externals new_form true (fresh_world network_up)
    = ((record', raised), w')
    /\ page_title record' = _extract_title page_shortcut_icon "https://x.com/a"
    /\ author record' = _extract_author page_shortcut_icon
    /\ same_but_fetched new_quoteback record'
    /\ sent w' = [mkRequest "https://x.com/a" HEADERS 10;
                  mkRequest "https://x.com/f.png" HEADERS 10]
    /\ warnings w' = []
    /\ raised = None
    /\ favicon record' = "f.png"
    /\ files w' = [("f.png", sample_content)]
    /\ saved w' = [record']
    /\ m2m_saved w' = 1%nat.
Proof.
  refine (@save_fills_blank_record sample_externals new_form true
            (fresh_world network_up) (mkResponse 200 sample_content)
            (mkResponse 200 sample_content) page_shortcut_icon
            "https://x.com/f.png"
            (Urllib.mkParse "https" "x.com" "/f.png" EmptyString EmptyString
               EmptyString) _ _ _ _ _ _ _ _ _ _);
    try (vm_compute; reflexivity); try discriminate;
    (split; [reflexivity | vm_compute; intros [? ?]; congruence]).
Defined.

Lemma set_page_title_same (r : Quoteback) : set_page_title r (page_title r) = r.
Proof. by destruct r. Qed.

(** X10.  A save that has no reason to fetch touches nothing: when the
    fetch flag is off, or the source URL is empty, or the record is stored,
    has a page title and its source URL was not changed, [save] returns the
    record as the form built it, sends no request, logs nothing and stores no
    file; with [commit] it writes that record. *)
Theorem save_without_fetch_changes_nothing `{Externals}
    (self : QuotebackAdminForm) (commit : bool) (w : World) :
  value_truthy (cleaned_data self !! "fetch_metadata") = false
  \/ source_url (instance self) = EmptyString
  \/ (pk (instance self) <> None /\ pk (instance self) <> Some 0
      /\ page_title (instance self) <> EmptyString
      /\ "source_url" ∉ changed_data self) ->
  save self commit w
  = ((instance self, None),
     if commit then Effects.saving_m2m (Effects.saving (instance self) w) else w).
Proof.
  intros Hno. rewrite save_eq, fetch_and_merge_eq.
  destruct (fetches self (instance self)) eqn:E; [|done].
  apply fetches_true in E as (Hflag & Hurl & Hneed).
  destruct Hno as [Hoff|[Hempty|(Hpk & Hpk0 & Htitle & Hsame)]]; [congruence|done|].
  destruct Hneed as [[?|?]|[?|[_ ?]]]; done.
Qed.

Lemma save_without_fetch_witness :
  @save sample_externals titled_form true (fresh_world network_up)
  = ((titled_quoteback, None),
     Effects.saving_m2m (Effects.saving titled_quoteback (fresh_world network_up))).
Proof.
  apply (@save_without_fetch_changes_nothing sample_externals titled_form true
           (fresh_world network_up)).
  right. right. repeat split; try discriminate.
  intros Hin. apply list_elem_of_In in Hin. simpl in Hin.
  destruct Hin as [?|[]]. discriminate.
Defined.

(** X11.  The commit flag and line 114 decide the writes of a save, and
    nothing else does: when [save] returns and [commit] is set, the record
    it returns is written once and [save_m2m] runs once; without [commit],
    or when the exception of line 114 leaves [save], nothing is written.
    This holds whether or not the save fetched and whatever the network
    answered.  A save of a record that has a favicon returns: line 114 is
    not reached. *)
Theorem save_writes_exactly_what_it_returns `{Externals}
    (self : QuotebackAdminForm) (commit : bool) (w : World) :
  let record' := fst (fst (save self commit w)) in
  let raised := snd (fst (save self commit w)) in
  let w' := snd (save self commit w) in
  let written := match raised with Some _ => false | None => commit end in
  saved w' = saved w ++ (if written then [record'] else [])
  /\ m2m_saved w' = (m2m_saved w + (if written then 1 else 0))%nat
  /\ (favicon (instance self) <> EmptyString -> raised = None).
Proof.
  cbv zeta. rewrite save_eq. cbv zeta. cbn [fst snd].
  pose proof (fetch_and_merge_spec self (instance self) w) as Hspec.
  cbv zeta in Hspec. destruct Hspec as (_ & _ & _ & Hf & Hs & Hm).
  split; [|split].
  - destruct (snd (fst (fetch_and_merge self (instance self) w)));
      [|destruct commit]; simpl; by rewrite Hs, ?app_nil_r.
  - destruct (snd (fst (fetch_and_merge self (instance self) w)));
      [|destruct commit]; simpl; rewrite Hm; lia.
  - intros E%truthy_true. by destruct (Hf E) as (_ & _ & ?).
Qed.

(** The page whose icon is at [https://x.com/..]: the file is named [..],
    storage refuses the name, and a committing save writes nothing; the page
    title was set before line 114. *)
Lemma save_refused_name_witness :
  snd (fst (@save dotted_externals new_form true (fresh_world network_up)))
  = Some "SuspiciousFileOperation"
  /\ page_title (fst (fst (@save dotted_externals new_form true
                             (fresh_world network_up)))) = "T"
  /\ saved (snd (@save dotted_externals new_form true (fresh_world network_up)))
     = []
  /\ m2m_saved (snd (@save dotted_externals new_form true (fresh_world network_up)))
     = 0%nat.
Proof.
  assert (snd (fst (@save dotted_externals new_form true (fresh_world network_up)))
          = Some "SuspiciousFileOperation") as Hraised by (vm_compute; reflexivity).
  pose proof (@save_writes_exactly_what_it_returns dotted_externals new_form true
                (fresh_world network_up)) as Hw.
  cbv zeta in Hw. rewrite Hraised in Hw. destruct Hw as (Hs & Hm & _).
  split; [exact Hraised|]. split; [vm_compute; reflexivity|].
  split; [exact Hs|exact Hm].
Defined.

(** X12.  A page fetch that fails leaves the record alone: when [save]
    fetches and the GET of the source URL fails, [save] returns the record as
    the form built it, having sent that one request and logged one warning;
    no favicon is downloaded and no file is stored. *)
Theorem save_after_failed_fetch_keeps_record `{Externals}
    (self : QuotebackAdminForm) (commit : bool) (w : World) :
  let record := instance self in
  let page_request := mkRequest (source_url record) HEADERS 10 in
  fetches self record = true ->
  get_failed (network w (sent w) page_request) ->
  exists e,
    save self commit w
    = ((record, None),
       let w1 := Effects.warning
                   ("Error fetching metadata from " +:+ source_url record
                    +:+ ": " +:+ e)
                   (Effects.sending page_request w) in
       if commit then Effects.saving_m2m (Effects.saving record w1) else w1).
Proof.
  cbv zeta. intros Hfetch Hfail.
  rewrite save_eq, fetch_and_merge_eq, Hfetch. cbv zeta.
  rewrite fetch_page_metadata_eq. cbv zeta.
  destruct (try_fetch_failed (source_url (instance self)) _ empty_metadata Hfail)
    as [e ->].
  exists e. cbn [fst snd]. rewrite merge_eq. cbv zeta.
  change (default EmptyString (empty_metadata !! "title")) with EmptyString.
  change (default EmptyString (empty_metadata !! "author")) with EmptyString.
  change (default EmptyString (empty_metadata !! "favicon_url")) with EmptyString.
  cbn [PyStr.truthy andb].
  assert ((if PyStr.truthy (page_title (instance self)) then instance self
           else set_page_title (instance self) EmptyString) = instance self) as ->.
  { destruct (PyStr.truthy (page_title (instance self))) eqn:E; [done|].
    apply truthy_false in E. rewrite <- E. apply set_page_title_same. }
  by destruct (PyStr.truthy (author (instance self))).
Qed.

Lemma save_after_failed_fetch_witness :
  exists e,
    @save sample_externals new_form false (fresh_world network_down)
    = ((new_quoteback, None),
       Effects.warning
         ("Error fetching metadata from " +:+ "https://x.com/a" +:+ ": " +:+ e)
         (Effects.sending (mkRequest "https://x.com/a" HEADERS 10)
            (fresh_world network_down))).
Proof.
  apply (@save_after_failed_fetch_keeps_record sample_externals new_form false
           (fresh_world network_down)).
  - vm_compute. reflexivity.
  - exact I.
Defined.

(** ** [TagAdmin] *)

Lemma save_model_eq (obj : TagAdmin.Tag) (change : bool) (db : TagAdmin.Database) :
  TagAdmin.save_model obj change db
  = if change then
      match TagAdmin.pk obj with
      | Some z =>
          match TagAdmin.tag_rows db !! z with
          | Some old =>
              Value (TagAdmin.Model_save obj
                       (if bool_decide (old = TagAdmin.tag obj) then db
                        else TagAdmin.objects_create obj old db))
          | None => Raised "Tag matching query does not exist."
          end
      | None => Raised "Tag matching query does not exist."
      end
    else Value (TagAdmin.Model_save obj db).
Proof.
  unfold TagAdmin.save_model, TagAdmin.objects_get.
  destruct change; [|done].
  destruct (TagAdmin.pk obj) as [z|]; [|done].
  destruct (TagAdmin.tag_rows db !! z) as [old|]; [|done]. simpl.
  by destruct (bool_decide (old = TagAdmin.tag obj)).
Qed.

(** X13.  [TagAdmin.save_model] fails only for a change of a tag that is not
    stored, and a change of a stored tag never fails.  Otherwise the tag is
    stored under its key with its new name (a new tag under a key that was
    free), every other tag is as before, and the previous names grow by the
    old name of the tag exactly when the save is a change and the old name
    differs from the new one; a new tag and an unchanged name record
    nothing. *)
Theorem save_model_stores_tag_and_records_rename
    (obj : TagAdmin.Tag) (change : bool) (db : TagAdmin.Database) :
  let stored := z ← TagAdmin.pk obj; TagAdmin.tag_rows db !! z in
  match TagAdmin.save_model obj change db with
  | Raised _ => change = true /\ stored = None
  | Value (obj', db') =>
      (change = true -> stored <> None)
      /\ TagAdmin.tag obj' = TagAdmin.tag obj
      /\ (exists z,
            TagAdmin.pk obj' = Some z
            /\ (TagAdmin.pk obj = None -> TagAdmin.tag_rows db !! z = None)
            /\ (TagAdmin.pk obj <> None -> TagAdmin.pk obj = Some z)
            /\ TagAdmin.tag_rows db' !! z = Some (TagAdmin.tag obj)
            /\ (forall z', z' <> z ->
                  TagAdmin.tag_rows db' !! z' = TagAdmin.tag_rows db !! z'))
      /\ TagAdmin.previous_names db'
         = TagAdmin.previous_names db
           ++ match stored with
              | Some old =>
                  if change && negb (bool_decide (old = TagAdmin.tag obj))
                  then [(TagAdmin.pk obj, old)] else []
              | None => []
              end
  end.
Proof.
  cbv zeta. rewrite save_model_eq. unfold TagAdmin.Model_save.
  destruct obj as [[z|] name]; simpl.
  - destruct (TagAdmin.tag_rows db !! z) as [old|] eqn:Eold; simpl.
    + destruct change; simpl.
      * destruct (bool_decide (old = name)); simpl;
          (split; [done|]); (split; [done|]);
          (split; [exists z; repeat split; try done;
                     [apply lookup_insert_eq
                     |intros z' Hz'; by apply lookup_insert_ne]|]);
          by rewrite ?app_nil_r.
      * split; [done|]. split; [done|].
        split; [|by rewrite app_nil_r].
        exists z. repeat split; try done; [apply lookup_insert_eq|].
        intros z' Hz'. by apply lookup_insert_ne.
    + destruct change; simpl; [done|].
      split; [done|]. split; [done|]. split; [|by rewrite app_nil_r].
      exists z. repeat split; try done; [apply lookup_insert_eq|].
      intros z' Hz'. by apply lookup_insert_ne.
  - destruct change; simpl; [done|].
    split; [done|]. split; [done|]. split; [|by rewrite app_nil_r].
    exists (fresh (dom (TagAdmin.tag_rows db))).
    repeat split; try done.
    + intros _. apply not_elem_of_dom, is_fresh.
    + apply lookup_insert_eq.
    + intros z' Hz'. by apply lookup_insert_ne.
Qed.

Lemma last_cons {A} (a d : A) (l : list A) : List.last (a :: l) d = List.last l a.
Proof.
  revert a d. induction l as [|b l IH]; intros a d; [done|].
  change (List.last (a :: b :: l) d) with (List.last (b :: l) d).
  by rewrite !IH.
Qed.

(** X14.  A stored tag saved through [TagAdmin.save_model] under one name
    after another: no save fails, the tag ends with the last of the names,
    and the previous names recorded are, in order, the names that were
    replaced by a different name, starting with the name the tag had.  A
    save that repeats the current name records nothing. *)
Theorem renames_record_each_replaced_name
    (z : Z) (names : list string) (db : TagAdmin.Database) (current : string) :
  TagAdmin.tag_rows db !! z = Some current ->
  exists db',
    TagAdmin.save_each z names db = Value db'
    /\ TagAdmin.tag_rows db'
       = <[ z := List.last names current ]> (TagAdmin.tag_rows db)
    /\ TagAdmin.previous_names db'
       = TagAdmin.previous_names db
         ++ List.map (fun name => (Some z, name)) (TagAdmin.replaced current names).
Proof.
  revert db current. induction names as [|name names IH]; intros db current Hz.
  - exists db. simpl. split; [done|]. split; [|by rewrite app_nil_r].
    symmetry. by apply insert_id.
  - simpl TagAdmin.save_each. rewrite save_model_eq. simpl. rewrite Hz. simpl.
    set (db1 := if bool_decide (current = name) then db
                else TagAdmin.objects_create (TagAdmin.mkTag (Some z) name) current db).
    destruct (IH (snd (TagAdmin.Model_save (TagAdmin.mkTag (Some z) name) db1)) name)
      as (db' & Hrun & Hrows & Hprev).
    { unfold TagAdmin.Model_save. simpl. apply lookup_insert_eq. }
    exists db'. split; [exact Hrun|]. rewrite Hrows, Hprev.
    change (match names with
            | [] => name
            | _ :: _ => List.last names current
            end) with (List.last (name :: names) current).
    rewrite last_cons, map_app.
    unfold TagAdmin.Model_save, db1. simpl.
    destruct (bool_decide (current = name)); simpl.
    + by rewrite insert_insert_eq.
    + by rewrite insert_insert_eq, <- app_assoc.
Qed.

Lemma renames_witness :
  exists db',
    TagAdmin.save_each 1 ["python"; "py"; "py"; "python3"] sample_tags = Value db'
    /\ TagAdmin.tag_rows db' = <[ 1 := "python3" ]> (TagAdmin.tag_rows sample_tags)
    /\ TagAdmin.previous_names db' = [(Some 1, "python"); (Some 1, "py")].
Proof.
  apply (renames_record_each_replaced_name 1 ["python"; "py"; "py"; "python3"]
           sample_tags "python").
  vm_compute. reflexivity.
Defined.

(** X15.  [TagAdmin.get_search_results] ignores whitespace around the
    search term: a term and the same term stripped give the same result.  A
    term of whitespace only gives the queryset as it is, neither filtered nor
    ordered.  The result is never flagged as holding duplicates. *)
Theorem tag_search_ignores_surrounding_whitespace `{TagAdmin.Orm}
    (queryset : list TagAdmin.Tag) (search_term : string) :
  TagAdmin.get_search_results queryset (PyStr.strip search_term)
  = TagAdmin.get_search_results queryset search_term
  /\ (PyStr.all_chars PyStr.isspace search_term = true ->
      TagAdmin.get_search_results queryset search_term = (queryset, false))
  /\ snd (TagAdmin.get_search_results queryset search_term) = false.
Proof.
  unfold TagAdmin.get_search_results, PyStr.strip. cbv zeta.
  rewrite strip_by_idem. split; [done|]. split.
  - intros Hblank. apply strip_by_empty in Hblank. by rewrite Hblank.
  - by destruct (PyStr.truthy _).
Qed.

Lemma tag_search_witness :
  @TagAdmin.get_search_results sample_orm [TagAdmin.mkTag (Some 1) "python"] "   "
  = ([TagAdmin.mkTag (Some 1) "python"], false).
Proof.
  apply (proj1 (proj2 (@tag_search_ignores_surrounding_whitespace sample_orm
                         [TagAdmin.mkTag (Some 1) "python"] "   "))).
  vm_compute. reflexivity.
Defined.
